(** * MetroPulse NYC: the station intelligence core of [backend/app/main.py]

    A shallow embedding of the deterministic classification and scoring
    pipeline (borough classifier, TimeDNA extraction, percentile scorer,
    rule-based narrative generator) and of the narrative cache, followed by
    the properties checked against them.

    Numeric model.
    - Coordinates are IEEE-754 binary64 values (Rocq's primitive floats):
      the thresholds of [GeoEngine.get_borough] are the very doubles Python
      parses from the same decimal literals, and the one arithmetic
      expression of the classifier is evaluated with binary64 rounding.
    - Ridership values and percentile scores are rationals: the divisions
      and means of [calculate_percentile] and [get_clean_time_dna] are
      computed exactly, where Python rounds each operation to binary64.  NaN
      is kept as a separate value, because the code sanitises it. *)

From Stdlib Require Import Floats ZArith QArith Qround Lqa Lia List.
From Stdlib Require Import Ascii String DecimalString.
From stdpp Require Import base option list strings gmap.

Set Warnings "-inexact-float,-register-all".

Local Open Scope string_scope.
Local Open Scope Z_scope.

(** ** The Python the code relies on *)

Module Py.

(** Exceptions the modelled code can raise. *)
Inductive exn : Type :=
| KeyError (key : string)
| ValueError (msg : string)
| TypeError (msg : string).

(** The result of running Python code that may raise. *)
Inductive result (A : Type) : Type :=
| Ok (a : A)
| Raise (e : exn).
Arguments Ok {A} a.
Arguments Raise {A} e.

#[global] Instance result_ret : MRet result := fun _ a => Ok a.
#[global] Instance result_bind : MBind result := fun _ _ f m =>
  match m with
  | Ok a => f a
  | Raise e => Raise e
  end.

(** An insertion-ordered [dict] with string keys. *)
Definition dict (V : Type) : Type := list (string * V).

(** [d.get(k)] *)
Fixpoint dict_get {V} (d : dict V) (k : string) : option V :=
  match d with
  | [] => None
  | (k', v) :: d' => if String.eqb k' k then Some v else dict_get d' k
  end.

(** [d[k]] *)
Definition getitem {V} (d : dict V) (k : string) : result V :=
  match dict_get d k with
  | Some v => Ok v
  | None => Raise (KeyError k)
  end.

(** [d[k] = v]: an existing key keeps its position, a new one goes last. *)
Fixpoint setitem {V} (d : dict V) (k : string) (v : V) : dict V :=
  match d with
  | [] => [(k, v)]
  | (k', v') :: d' =>
    if String.eqb k' k then (k', v) :: d' else (k', v') :: setitem d' k v
  end.

(** [max(d, key=d.get)] over integer values: the first key, in insertion
    order, whose value is maximal; [ValueError] on an empty dict. *)
Fixpoint max_from (best : string * Z) (rest : dict Z) : string :=
  match rest with
  | [] => fst best
  | (k, v) :: rest' =>
    if (snd best <? v)%Z then max_from (k, v) rest' else max_from best rest'
  end.

Definition max_key (d : dict Z) : result string :=
  match d with
  | [] => Raise (ValueError "max() arg is an empty sequence")
  | kv :: rest => Ok (max_from kv rest)
  end.

(** [str(n)] for an [int]. *)
Definition str_int (n : Z) : string := NilZero.string_of_int (Z.to_int n).

(** A float of the ridership arrays: a rational, or NaN. *)
Inductive npfloat : Type :=
| Num (q : Q)
| NaN.

(** [x > y], [x < y] on rationals. *)
Definition Qgtb (x y : Q) : bool := (Qnum y * QDen x <? Qnum x * QDen y)%Z.
Definition Qltb (x y : Q) : bool := Qgtb y x.

(** [int(x)] on a finite float: truncation towards zero. *)
Definition trunc (q : Q) : Z := Z.quot (Qnum q) (Zpos (Qden q)).

(** [int(x)] on an array float; NaN cannot be converted. *)
Definition int (x : npfloat) : result Z :=
  match x with
  | Num q => Ok (trunc q)
  | NaN => Raise (ValueError "cannot convert float NaN to integer")
  end.

(** [np.nan_to_num(day, nan=0.0)] *)
Definition nan_to_num (day : list npfloat) : list Q :=
  map (fun x => match x with Num q => q | NaN => 0%Q end) day.

(** [a[i:j]] for [0 <= i <= j]. *)
Definition slice {A} (a : list A) (i j : nat) : list A :=
  take (j - i) (drop i a).

Definition Qsum (xs : list Q) : Q := fold_right Qplus 0%Q xs.

(** [np.mean(a)]: NaN on an empty array. *)
Definition mean (xs : list Q) : npfloat :=
  match xs with
  | [] => NaN
  | _ => Num (Qsum xs / inject_Z (Z.of_nat (length xs)))
  end.

Definition add (x y : npfloat) : npfloat :=
  match x, y with
  | Num a, Num b => Num (a + b)
  | _, _ => NaN
  end.

Definition div (x : npfloat) (d : Q) : npfloat :=
  match x with
  | Num a => Num (a / d)
  | NaN => NaN
  end.

(** A JSON value, as [json.load] builds it and [json.dump] writes it. *)
Inductive json : Type :=
| JNull
| JBool (b : bool)
| JInt (n : Z)
| JFloat (q : Q)
| JStr (s : string)
| JArr (items : list json)
| JObj (fields : list (string * json)).

(** [isinstance(v, dict)] *)
Definition is_dict (v : json) : bool :=
  match v with
  | JObj _ => true
  | _ => false
  end.

End Py.

Import Py.

(** ** Name normalizer *)

Definition is_alnum (c : ascii) : bool :=
  let n := nat_of_ascii c in
  ((48 <=? n) && (n <=? 57) || (65 <=? n) && (n <=? 90)
   || (97 <=? n) && (n <=? 122))%nat.

Definition lower (c : ascii) : ascii :=
  let n := nat_of_ascii c in
  if ((65 <=? n) && (n <=? 90))%nat then ascii_of_nat (n + 32) else c.

(** [normalize_key(name)]: [re.sub(r'[^a-zA-Z0-9]', '', name).lower()]; the
    empty name gives the empty key. *)
Fixpoint normalize_key (name : string) : string :=
  match name with
  | EmptyString => EmptyString
  | String c rest =>
    if is_alnum c then String (lower c) (normalize_key rest)
    else normalize_key rest
  end.

(** ** Borough classifier *)

Module GeoEngine.

(** Python's [x > y] and [x < y] on floats: both are false when either
    side is NaN. *)
Definition fgt (x y : float) : bool := PrimFloat.ltb y x.
Definition flt (x y : float) : bool := PrimFloat.ltb x y.

Local Notation "x >. y" := (fgt x y%float) (at level 70, no associativity).
Local Notation "x <. y" := (flt x y%float) (at level 70, no associativity).

(** [GeoEngine.get_borough(lat, lon)]; [None] is Python's [None]. *)
Definition get_borough (lat lon : option float) : string :=
  match lat, lon with
  | Some lat, Some lon =>
    (* 1. The Bronx *)
    if lat >. 40.835 then "Bronx"
    (* 2. Staten Island *)
    else if lon <. -74.05 then "Staten Island"
    (* 3. Deep Queens *)
    else if lon >. -73.85 then "Queens"
    else
      (* 4. Manhattan vs outer boroughs *)
      let is_manhattan :=
        if lat >. 40.76 then lon <. -73.935
        else if lat >. 40.74 then lon <. -73.96
        else
          let east_river_border := (-74.01 + (lat - 40.68) * 0.8)%float in
          flt lon east_river_border in
      if is_manhattan then
        if lat >. 40.88 then "Bronx" else "Manhattan"
      (* 5. Brooklyn vs Queens *)
      else if lat <. 40.60 then
        if lon >. -73.90 then "Queens" else "Brooklyn"
      else if lat >. 40.70 then
        if lon >. -73.91 then "Queens"
        else if lat >. 40.735 then "Queens"
        else "Brooklyn"
      else if (lat <. 40.70) && (lon >. -73.86) then "Queens"
      else "Brooklyn"
  | _, _ => "NYC"
  end.

(** The classifier with the Marble Hill check of the Manhattan branch
    taken out; everything else is [get_borough]. *)
Definition get_borough_no_override (lat lon : option float) : string :=
  match lat, lon with
  | Some lat, Some lon =>
    if lat >. 40.835 then "Bronx"
    else if lon <. -74.05 then "Staten Island"
    else if lon >. -73.85 then "Queens"
    else
      let is_manhattan :=
        if lat >. 40.76 then lon <. -73.935
        else if lat >. 40.74 then lon <. -73.96
        else
          let east_river_border := (-74.01 + (lat - 40.68) * 0.8)%float in
          flt lon east_river_border in
      if is_manhattan then "Manhattan"
      else if lat <. 40.60 then
        if lon >. -73.90 then "Queens" else "Brooklyn"
      else if lat >. 40.70 then
        if lon >. -73.91 then "Queens"
        else if lat >. 40.735 then "Queens"
        else "Brooklyn"
      else if (lat <. 40.70) && (lon >. -73.86) then "Queens"
      else "Brooklyn"
  | _, _ => "NYC"
  end.

(** The labels the code can return. *)
Definition borough_labels : list string :=
  ["Bronx"; "Staten Island"; "Queens"; "Manhattan"; "Brooklyn"; "NYC"].

(** The label set of the specification, in the code's spelling of the five
    boroughs and with the specification's [Unknown] as the sixth label. *)
Definition spec_borough_labels : list string :=
  ["Bronx"; "Staten Island"; "Queens"; "Manhattan"; "Brooklyn"; "Unknown"].

End GeoEngine.

(** ** Rule-based narrative generator *)

Module RuleBasedNarrative.

(** Part A of [generate]: the primary character.  The conditions are
    evaluated in the order of the [if]/[elif] chain, [time_dna[...]] only
    where Python's short-circuit [and] reaches it. *)
Definition character_type (vitality office : Q) (uni : Z)
    (time_dna : dict Z) : result string :=
  if (uni >? 2)%Z then Ok "Academic"
  else
    nightlife ←
      (if Qgtb vitality 75
       then night ← getitem time_dna "night"; mret (night >? 40)%Z
       else mret false);
    if nightlife : bool then Ok "Nightlife"
    else if Qgtb office 70 then Ok "Corporate"
    else if Qgtb office 50 && Qgtb vitality 50 then Ok "Mixed-Use"
    else
      morning ← getitem time_dna "morning";
      if (morning >? 60)%Z then Ok "Commuter"
      else if Qltb vitality 20 && Qltb office 20 then Ok "Residential"
      else Ok "Standard".

(** Part B: the persona title. *)
Definition persona_map (borough : string) : dict string :=
  [ ("Academic", borough ++ " Student Hub");
    ("Nightlife", borough ++ " Nightlife District");
    ("Corporate", borough ++ " Business Center");
    ("Mixed-Use", "Dynamic " ++ borough ++ " Hub");
    ("Commuter", "Major Transit Anchor");
    ("Residential", "Local Neighborhood Stop");
    ("Standard", borough ++ " Local Stop") ].

Definition persona_of (borough character : string) : string :=
  default "Local Station" (dict_get (persona_map borough) character).

(** Part C: the first sentence. *)
Definition vibe_desc (borough character : string) (vitality : Q) : string :=
  if String.eqb character "Academic" then
    "Defined by student foot traffic and nearby educational institutions."
  else if String.eqb character "Nightlife" then
    "A high-energy area (Vitality: " ++ str_int (trunc vitality)
      ++ "%) bustling with evening social activity."
  else if String.eqb character "Corporate" then
    "A dense commercial district dominated by office buildings and professional services."
  else if String.eqb character "Mixed-Use" then
    "A balanced 'Live-Work-Play' neighborhood combining commercial density with social amenities."
  else if String.eqb character "Residential" then
    "A quieter, community-focused area serving local residents."
  else
    "A key " ++ borough ++ " transit point serving the surrounding community.".

(** Part D: the second sentence, from the peak bucket's key. *)
Definition morning_sentence : string :=
  "Passenger volume peaks in the Morning (6-10am), indicating a heavy outbound commuter flow.".
Definition lunch_sentence : string :=
  "Activity is highest midday (11am-2pm), driven by local lunch crowds.".
Definition evening_sentence : string :=
  "Passenger volume swells in the Evening (4-8pm) as the workday ends and retail activity picks up.".
Definition night_sentence : string :=
  "Unusually high Late Night (10pm-4am) ridership signals a destination for after-hours entertainment.".
Definition consistent_sentence : string :=
  "Ridership remains consistent throughout the day.".

Definition time_desc (peak_time : string) : string :=
  if String.eqb peak_time "morning" then morning_sentence
  else if String.eqb peak_time "lunch" then lunch_sentence
  else if String.eqb peak_time "evening" then evening_sentence
  else if String.eqb peak_time "night" then night_sentence
  else consistent_sentence.

(** [RuleBasedNarrative.generate(borough, vitality, office, uni, time_dna)] *)
Definition generate (borough : string) (vitality office : Q) (uni : Z)
    (time_dna : dict Z) : result (dict json) :=
  character ← character_type vitality office uni time_dna;
  let persona := persona_of borough character in
  let vibe := vibe_desc borough character vitality in
  peak_time ← max_key time_dna;
  mret [ ("persona", JStr persona);
         ("description", JStr (vibe ++ " " ++ time_desc peak_time)) ].

End RuleBasedNarrative.

(** ** TimeDNA extraction and percentile scoring *)

(** The TimeDNA dict, with its keys in the order the code inserts them. *)
Definition time_dna_of (morning lunch evening night : Z) : dict Z :=
  [ ("morning", morning); ("lunch", lunch);
    ("evening", evening); ("night", night) ].

(** The four buckets of a sanitised day, each truncated to an integer; the
    [return] expression of [get_clean_time_dna]. *)
Definition time_buckets (day : list Q) : result (dict Z) :=
  morning ← int (mean (slice day 6 10));
  lunch ← int (mean (slice day 11 14));
  evening ← int (mean (slice day 16 20));
  night ← int (div (add (mean (slice day 22 24)) (mean (slice day 0 4))) 2);
  mret (time_dna_of morning lunch evening night).

(** The flat pulse used when no profile of 24 values is available. *)
Definition flat_pulse : list npfloat := replicate 24 (Num 20).

(** The fallback source as the specification words it: the first 24 values
    of the cluster profile, padded with 20.0 where the profile has fewer. *)
Definition spec_padded_profile (cluster_profile : list npfloat)
    : list npfloat :=
  take 24 (cluster_profile
           ++ replicate (24 - length cluster_profile) (Num 20))%list.

Section Tables.

(** The module-level tables, filled at import time and only read by the
    request path. *)
Variable STATION_PULSE_CACHE : gmap string (list npfloat).
Variable CLUSTER_PROFILES : gmap string (list npfloat).
Variable DISTRIBUTIONS : gmap string (list Z).

(** The array [day] that [get_clean_time_dna] works on, before
    [nan_to_num]. *)
Definition pulse_source (station_name cluster_id : string) : list npfloat :=
  let key := normalize_key station_name in
  match STATION_PULSE_CACHE !! key with
  | Some pulse => pulse
  | None =>
    let cluster_profile := default [] (CLUSTER_PROFILES !! cluster_id) in
    if (24 <=? length cluster_profile)%nat
    then take 24 cluster_profile
    else flat_pulse
  end.

(** [get_clean_time_dna(station_name, cluster_id)]; both callers pass the
    cluster id already converted by [str], so [str(cluster_id)] is the
    identity here. *)
Definition get_clean_time_dna (station_name cluster_id : string)
    : result (dict Z) :=
  time_buckets (nan_to_num (pulse_source station_name cluster_id)).

(** [sum(1 for x in data if x < value)] *)
Definition count_less (data : list Z) (value : Z) : nat :=
  length (filter (fun x => (x < value)%Z) data).

(** [calculate_percentile(dist_key, value)] *)
Definition calculate_percentile (dist_key : string) (value : option Z) : Q :=
  let data := default [] (DISTRIBUTIONS !! dist_key) in
  match data with
  | [] => 0%Q
  | _ =>
    let value := default 0%Z value in
    (inject_Z (Z.of_nat (count_less data value))
     / inject_Z (Z.of_nat (length data)) * 100)%Q
  end.

End Tables.

(** ** Narrative cache and the narrative endpoint *)

(** A row of the station feature table [clusters.parquet], with the columns
    the endpoint reads; a SQL null is [None]. *)
Record row : Type := Row {
  STATION : string;
  cluster_id : Z;
  GTFS_Latitude : option float;
  GTFS_Longitude : option float;
  n_bars : option Z;
  n_offices : option Z;
  n_universities : option Z
}.

(** [narratives.json] on disk: absent, present but not loadable, or holding
    the mapping that [save_cache] dumped.  A file that holds valid JSON
    which is not an object is the case [Process.Holds (Process.Other _)]
    of the general state further down. *)
Inductive file_state : Type :=
| NoFile
| Unparsable
| Holds (m : gmap string json).

(** What a request can change: the in-memory cache and the file, together
    with two counters that record the calls made to the outside
    ([db.query] and the text-polish model).  This is the state of a process
    whose [NARRATIVES_CACHE] is a dict, as it is whenever the process built
    it itself or loaded it from a file that [save_cache] wrote;
    [Process.state] further down is the state for any value that
    [json.load] can return. *)
Record world : Type := World {
  NARRATIVES_CACHE : gmap string json;
  NARRATIVES_FILE : file_state;
  db_queries : nat;
  polish_calls : nat
}.

(** How a write of the cache file goes: it succeeds, [open] raises (the file
    is left as it was), or [json.dump] raises after [open] truncated it. *)
Inductive write_outcome : Type :=
| Written
| OpenFails
| DumpFails.

(** What comes back from the polish call: an exception anywhere between the
    request and [json.loads], or the value [json.loads] returned. *)
Inductive polish_reply : Type :=
| NoReply
| Parsed (v : json).

(** The behaviour of the outside during one request. *)
Record outside : Type := Outside {
  db_up : bool;
  reply : polish_reply;
  write : write_outcome
}.

(** [save_cache()]: every exception is swallowed. *)
Definition save_cache (w : write_outcome) (st : world) : world :=
  match w with
  | Written =>
    World (NARRATIVES_CACHE st) (Holds (NARRATIVES_CACHE st))
          (db_queries st) (polish_calls st)
  | OpenFails => st
  | DumpFails =>
    World (NARRATIVES_CACHE st) Unparsable (db_queries st) (polish_calls st)
  end.

(** [load_cache()]; [readable] is false when opening or reading the file
    raises. *)
Definition load_cache (readable : bool) (st : world) : world :=
  match NARRATIVES_FILE st with
  | NoFile => st
  | Unparsable =>
    World ∅ (NARRATIVES_FILE st) (db_queries st) (polish_calls st)
  | Holds m =>
    World (if readable then m else ∅) (NARRATIVES_FILE st)
          (db_queries st) (polish_calls st)
  end.

(** A process start: [NARRATIVES_CACHE = {}] followed by [load_cache()]. *)
Definition startup (readable : bool) (st : world) : world :=
  load_cache readable
    (World ∅ (NARRATIVES_FILE st) (db_queries st) (polish_calls st)).

(** The record returned for a station without feature row. *)
Definition unknown_station : json :=
  JObj [ ("persona", JStr "Unknown Station");
         ("description", JStr "Data unavailable.") ].

(** The body of the [try] block once the model has been called: only a
    parsed object with a [description] key changes the result. *)
Definition apply_polish (r : polish_reply) (result : dict json) : dict json :=
  match r with
  | Parsed (JObj fields) =>
    match dict_get fields "description" with
    | Some d =>
      setitem (setitem result "description" d) "is_ai_generated" (JBool true)
    | None => result
    end
  | _ => result
  end.

(** The cache test of the endpoint:
    [station in NARRATIVES_CACHE and isinstance(NARRATIVES_CACHE[station], dict)]. *)
Definition is_cached (cache : gmap string json) (station : string) : bool :=
  match cache !! station with
  | Some v => is_dict v
  | None => false
  end.

Section Endpoint.

Variable STATION_PULSE_CACHE : gmap string (list npfloat).
Variable CLUSTER_PROFILES : gmap string (list npfloat).
Variable DISTRIBUTIONS : gmap string (list Z).
(** The rows of [clusters.parquet]. *)
Variable clusters : list row.
(** Whether the polish client was configured at import time. *)
Variable client : bool.

(** [db.query("SELECT * FROM clusters WHERE STATION = ?", (station,))]:
    any failure of the query gives the empty list. *)
Definition query_station (up : bool) (station : string) : list row :=
  if up then filter (fun r => STATION r = station) clusters else [].

(** The deterministic part of a miss: the record before polishing. *)
Definition baseline (station : string) (data : row) : result (dict json) :=
  let cid := str_int (cluster_id data) in
  let borough :=
    GeoEngine.get_borough (GTFS_Latitude data) (GTFS_Longitude data) in
  time_dna ← get_clean_time_dna STATION_PULSE_CACHE CLUSTER_PROFILES
               station cid;
  let vitality_score := calculate_percentile DISTRIBUTIONS "bars" (n_bars data) in
  let office_score := calculate_percentile DISTRIBUTIONS "offices" (n_offices data) in
  let uni_count := default 0%Z (n_universities data) in
  base_analysis ← RuleBasedNarrative.generate
                    borough vitality_score office_score uni_count time_dna;
  mret (base_analysis ++
        [ ("vitality_score", JFloat vitality_score);
          ("office_score", JFloat office_score);
          ("is_ai_generated", JBool false) ])%list.

(** [get_station_analysis(station)] *)
Definition get_station_analysis (station : string) (out : outside)
    (st : world) : result json * world :=
  match NARRATIVES_CACHE st !! station with
  | Some (JObj fields) => (Ok (JObj fields), st)
  | _ =>
    let st := World (NARRATIVES_CACHE st) (NARRATIVES_FILE st)
                    (S (db_queries st)) (polish_calls st) in
    match query_station (db_up out) station with
    | [] => (Ok unknown_station, st)
    | data :: _ =>
      match baseline station data with
      | Raise e => (Raise e, st)
      | Ok result =>
        let '(result, st) :=
          if client then
            (apply_polish (reply out) result,
             World (NARRATIVES_CACHE st) (NARRATIVES_FILE st)
                   (db_queries st) (S (polish_calls st)))
          else (result, st) in
        let st := World (<[station := JObj result]> (NARRATIVES_CACHE st))
                        (NARRATIVES_FILE st) (db_queries st)
                        (polish_calls st) in
        (Ok (JObj result), save_cache (write out) st)
      end
    end
  end.

End Endpoint.

(** ** A small deployment used in the examples *)

Module Demo.

Definition pulses : gmap string (list npfloat) := ∅.
Definition profiles : gmap string (list npfloat) := ∅.

Definition distributions : gmap string (list Z) :=
  {[ "bars" := [5; 0; 9]; "offices" := [2; 7; 1]; "unis" := [0; 0; 1] ]}.

Definition canal_st : row :=
  Row "Canal St" 3 (Some 40.7187%float) (Some (-74.0002)%float)
      (Some 5) (Some 2) (Some 0).

Definition table : list row := [canal_st].

(** A process that has just started with no cache file. *)
Definition fresh : world := World ∅ NoFile 0 0.

(** A reply of the polish model that carries a description. *)
Definition polished : polish_reply :=
  Parsed (JObj [ ("persona", JStr "Canal St");
                 ("description", JStr "A polished description.") ]).

End Demo.

(** ** Startup: pulses, cluster profiles, distributions *)

Module Startup.

(** [arr.max()] and [arr.min()] of a non-empty array, given as its first
    element and the rest. *)
Definition Qmaxb (a b : Q) : Q := if Qgtb b a then b else a.
Definition Qminb (a b : Q) : Q := if Qltb b a then b else a.
Definition arr_max (x : Q) (xs : list Q) : Q := fold_left Qmaxb xs x.
Definition arr_min (x : Q) (xs : list Q) : Q := fold_left Qminb xs x.

(** The second loop body of [preload_data]: min-max normalisation of one
    station's hourly averages; [max] of an empty array raises. *)
Definition normalize_pulse (values : list Q) : result (list npfloat) :=
  match values with
  | [] => Raise (ValueError "zero-size array to reduction operation maximum which has no identity")
  | x :: xs =>
    let mx := arr_max x xs in
    let mn := arr_min x xs in
    let range_val := (mx - mn)%Q in
    if Qgtb range_val 0 then
      Ok (map (fun a => Num ((a - mn) / range_val * 100)%Q) values)
    else if Qgtb mx 0 then Ok (map (fun _ => Num 50) values)
    else Ok (map (fun _ => Num 5) values)
  end.

(** A row of the hourly aggregate query with a non-null hour: station name
    (a string or [None]), hour of day (an SQL INTEGER), average volume
    (null, NaN or a number).  [raw_traffic_row] further down is the row as
    [db.query] can hand it over, NULL hour and NaN name included. *)
Record traffic_row : Type := TrafficRow {
  t_station : option string;
  hr : Z;
  vol : option npfloat
}.

(** [normalize_key] on a possibly null name. *)
Definition normalize_name (name : option string) : string :=
  match name with
  | Some s => normalize_key s
  | None => ""
  end.

(** [if v is None or math.isnan(v): v = 0.0] *)
Definition clean_volume (v : option npfloat) : Q :=
  match v with
  | Some (Num q) => q
  | _ => 0%Q
  end.

(** The first loop body of [preload_data]: a new key starts with 24 zeros,
    and an hour inside [0, 24) overwrites its slot. *)
Definition record_hour (temp_cache : dict (list Q)) (r : traffic_row)
    : dict (list Q) :=
  let key := normalize_name (t_station r) in
  let v := clean_volume (vol r) in
  let values := default (replicate 24 0%Q) (dict_get temp_cache key) in
  setitem temp_cache key
    (if (0 <=? hr r) && (hr r <? 24)
     then <[Z.to_nat (hr r) := v]> values
     else values).

(** The second loop of [preload_data], in the insertion order of
    [temp_cache]; an exception leaves what was stored so far. *)
Fixpoint store_pulses (items : dict (list Q))
    (cache : gmap string (list npfloat))
    : gmap string (list npfloat) * option exn :=
  match items with
  | [] => (cache, None)
  | (s, values) :: rest =>
    match normalize_pulse values with
    | Ok arr => store_pulses rest (<[s := arr]> cache)
    | Raise e => (cache, Some e)
    end
  end.

(** Part 1 of [preload_data]: the pulse cache after the [try] block, the
    exception being logged and dropped. *)
Definition preload_pulses (raw_data : list traffic_row)
    (cache : gmap string (list npfloat)) : gmap string (list npfloat) :=
  fst (store_pulses (fold_left record_hour raw_data []) cache).

(** Part 2 of [preload_data]: the three distributions, a null count being
    0 ([r['n_bars'] or 0]). *)
Definition load_distributions (rows : list row) : gmap string (list Z) :=
  <["unis" := map (fun r => default 0 (n_universities r)) rows]>
    (<["offices" := map (fun r => default 0 (n_offices r)) rows]>
       (<["bars" := map (fun r => default 0 (n_bars r)) rows]>
          {[ "bars" := []; "offices" := []; "unis" := [] ]})).

(** The rationals of an array, or [None] when it holds a NaN. *)
Fixpoint all_nums (raw : list npfloat) : option (list Q) :=
  match raw with
  | [] => Some []
  | Num q :: rest => option_map (cons q) (all_nums rest)
  | NaN :: _ => None
  end.

(** The scaling of one cluster profile at import time.  With a NaN in the
    array [max] and [min] are NaN, the comparison is false and
    [raw * 0 + 20] keeps the NaN entries. *)
Definition scale_profile (raw : list npfloat) : result (list npfloat) :=
  match raw with
  | [] => Raise (ValueError "zero-size array to reduction operation maximum which has no identity")
  | _ =>
    match all_nums raw with
    | Some (x :: xs) =>
      let mx := arr_max x xs in
      let mn := arr_min x xs in
      if Qgtb mx mn then
        Ok (map (fun a => Num ((a - mn) / (mx - mn) * 100)%Q) (x :: xs))
      else Ok (map (fun _ => Num 20) (x :: xs))
    | _ =>
      Ok (map (fun a => match a with Num _ => Num 20 | NaN => NaN end) raw)
    end
  end.

(** An entry of [cluster_profiles.json]; a missing [hourly_profile] is
    [[0]*168]. *)
Record profile_entry : Type := ProfileEntry {
  p_cluster_id : Z;
  hourly_profile : option (list npfloat)
}.

(** The loop over [cluster_profiles.json]; an exception ends it and leaves
    what was stored so far. *)
Fixpoint load_profiles (profiles : list profile_entry)
    (cache : gmap string (list npfloat)) : gmap string (list npfloat) :=
  match profiles with
  | [] => cache
  | p :: rest =>
    match scale_profile (default (replicate 168 (Num 0)) (hourly_profile p)) with
    | Ok scaled => load_profiles rest (<[str_int (p_cluster_id p) := scaled]> cache)
    | Raise _ => cache
    end
  end.

(** A [STATION] value as [db.query] hands it over: a string, [None] (the
    fallback conversion of a NULL) or the float NaN (the dataframe
    conversion of a NULL). *)
Inductive station_value : Type :=
| StationStr (s : string)
| StationNone
| StationNaN.

(** [normalize_key(name)] on such a value: [None] is falsy and gives the
    empty key; NaN is truthy and [str(nan)] is ['nan']. *)
Definition normalize_value (name : station_value) : string :=
  match name with
  | StationStr s => normalize_key s
  | StationNone => ""
  | StationNaN => "nan"
  end.

(** A row of the hourly aggregate query as [db.query] can return it; a NULL
    hour is [None]. *)
Record raw_traffic_row : Type := RawTrafficRow {
  raw_station : station_value;
  raw_hr : option Z;
  raw_vol : option npfloat
}.

(** The first loop body of [preload_data] on such a row: [0 <= h < 24]
    raises when [h] is [None]. *)
Definition record_raw_hour (temp_cache : dict (list Q)) (r : raw_traffic_row)
    : result (dict (list Q)) :=
  let key := normalize_value (raw_station r) in
  let v := clean_volume (raw_vol r) in
  let values := default (replicate 24 0%Q) (dict_get temp_cache key) in
  match raw_hr r with
  | None =>
    Raise (TypeError "'<=' not supported between instances of 'int' and 'NoneType'")
  | Some h =>
    Ok (setitem temp_cache key
          (if (0 <=? h) && (h <? 24)
           then <[Z.to_nat h := v]> values
           else values))
  end.

(** The first loop of [preload_data]: it stops at the first exception. *)
Fixpoint first_loop (raw_data : list raw_traffic_row)
    (temp_cache : dict (list Q)) : result (dict (list Q)) :=
  match raw_data with
  | [] => Ok temp_cache
  | r :: rest =>
    match record_raw_hour temp_cache r with
    | Ok temp_cache' => first_loop rest temp_cache'
    | Raise e => Raise e
    end
  end.

(** Part 1 of [preload_data] on the rows as [db.query] returns them: an
    exception in the first loop is caught before anything was stored. *)
Definition preload_raw_pulses (raw_data : list raw_traffic_row)
    (cache : gmap string (list npfloat)) : gmap string (list npfloat) :=
  match first_loop raw_data [] with
  | Ok temp_cache => fst (store_pulses temp_cache cache)
  | Raise _ => cache
  end.

End Startup.

(** ** The other endpoints *)

(** The "Retail Scout" block of [get_intelligent_stations]. *)
Definition retail_gap (office_score vitality : Q) : Q :=
  if Qgtb office_score 60 && Qltb vitality 40 then (9 # 10)%Q
  else if Qgtb office_score 40 && Qltb vitality 50 then (6 # 10)%Q
  else if Qgtb vitality 80 then (1 # 10)%Q
  else 0%Q.

(** [CLUSTER_PROFILES.get(cid, [0.0]*24)[:24]] of [get_clusters]. *)
Definition chart_data (CLUSTER_PROFILES : gmap string (list npfloat))
    (cid : string) : list npfloat :=
  take 24 (default (replicate 24 (Num 0)) (CLUSTER_PROFILES !! cid)).

(** ** The narrative endpoint on whatever [load_cache] loaded *)

Module Process.

(** A JSON value that is not an object. *)
Inductive other_json : Type :=
| ONull
| OBool (b : bool)
| OInt (n : Z)
| OFloat (q : Q)
| OStr (s : string)
| OArr (items : list json).

(** [NARRATIVES_CACHE]: [load_cache] assigns whatever [json.load] returns,
    a dict or any other JSON value. *)
Inductive cache_value : Type :=
| Mapping (m : gmap string json)
| Other (v : other_json).

(** [narratives.json] on disk: absent, not loadable, or holding a JSON
    value. *)
Inductive file_contents : Type :=
| Missing
| Garbled
| Holds (c : cache_value).

Record state : Type := State {
  NARRATIVES_CACHE : cache_value;
  NARRATIVES_FILE : file_contents;
  db_queries : nat;
  polish_calls : nat
}.

(** [sub in s] on strings. *)
Fixpoint is_substring (sub s : string) : bool :=
  String.prefix sub s
  || match s with
     | EmptyString => false
     | String _ rest => is_substring sub rest
     end.

(** [station in NARRATIVES_CACHE] on a value that is not a dict: membership
    in a list, substring of a string, [TypeError] on the rest. *)
Definition contains (v : other_json) (station : string) : result bool :=
  match v with
  | OArr items =>
    Ok (existsb (fun item => match item with
                             | JStr s => String.eqb s station
                             | _ => false
                             end) items)
  | OStr s => Ok (is_substring station s)
  | ONull => Raise (TypeError "argument of type 'NoneType' is not iterable")
  | OBool _ => Raise (TypeError "argument of type 'bool' is not iterable")
  | OInt _ => Raise (TypeError "argument of type 'int' is not iterable")
  | OFloat _ => Raise (TypeError "argument of type 'float' is not iterable")
  end.

(** The cache test and the early [return]: [Some record] is the record to
    return, [None] sends the request on.  On a list or a string that
    contains the station, [NARRATIVES_CACHE[station]] raises. *)
Definition lookup_cached (c : cache_value) (station : string)
    : result (option json) :=
  match c with
  | Mapping m =>
    Ok (match m !! station with
        | Some (JObj fields) => Some (JObj fields)
        | _ => None
        end)
  | Other v =>
    found ← contains v station;
    if found : bool
    then Raise (TypeError "indices must be integers")
    else Ok None
  end.

(** [NARRATIVES_CACHE[station] = result]: only a dict takes a string key. *)
Definition store (c : cache_value) (station : string) (record : json)
    : result cache_value :=
  match c with
  | Mapping m => Ok (Mapping (<[station := record]> m))
  | Other _ => Raise (TypeError "item assignment with a string key")
  end.

(** [save_cache()]: [json.dump] writes the cache whatever it is; every
    exception is swallowed. *)
Definition save_cache (w : write_outcome) (st : state) : state :=
  match w with
  | Written =>
    State (NARRATIVES_CACHE st) (Holds (NARRATIVES_CACHE st))
          (db_queries st) (polish_calls st)
  | OpenFails => st
  | DumpFails =>
    State (NARRATIVES_CACHE st) Garbled (db_queries st) (polish_calls st)
  end.

(** [load_cache()]; [readable] is false when opening or reading the file
    raises. *)
Definition load_cache (readable : bool) (st : state) : state :=
  match NARRATIVES_FILE st with
  | Missing => st
  | Garbled =>
    State (Mapping ∅) (NARRATIVES_FILE st) (db_queries st) (polish_calls st)
  | Holds c =>
    State (if readable then c else Mapping ∅) (NARRATIVES_FILE st)
          (db_queries st) (polish_calls st)
  end.

(** A process start: [NARRATIVES_CACHE = {}] followed by [load_cache()]. *)
Definition startup (readable : bool) (st : state) : state :=
  load_cache readable
    (State (Mapping ∅) (NARRATIVES_FILE st) (db_queries st) (polish_calls st)).

Section Endpoint.

Variable STATION_PULSE_CACHE : gmap string (list npfloat).
Variable CLUSTER_PROFILES : gmap string (list npfloat).
Variable DISTRIBUTIONS : gmap string (list Z).
Variable clusters : list row.
Variable client : bool.

(** [get_station_analysis(station)] *)
Definition get_station_analysis (station : string) (out : outside)
    (st : state) : result json * state :=
  match lookup_cached (NARRATIVES_CACHE st) station with
  | Raise e => (Raise e, st)
  | Ok (Some record) => (Ok record, st)
  | Ok None =>
    let st := State (NARRATIVES_CACHE st) (NARRATIVES_FILE st)
                    (S (db_queries st)) (polish_calls st) in
    match query_station clusters (db_up out) station with
    | [] => (Ok unknown_station, st)
    | data :: _ =>
      match baseline STATION_PULSE_CACHE CLUSTER_PROFILES DISTRIBUTIONS
                     station data with
      | Raise e => (Raise e, st)
      | Ok result =>
        let '(result, st) :=
          if client then
            (apply_polish (reply out) result,
             State (NARRATIVES_CACHE st) (NARRATIVES_FILE st)
                   (db_queries st) (S (polish_calls st)))
          else (result, st) in
        match store (NARRATIVES_CACHE st) station (JObj result) with
        | Raise e => (Raise e, st)
        | Ok cache =>
          (Ok (JObj result),
           save_cache (write out)
             (State cache (NARRATIVES_FILE st) (db_queries st)
                    (polish_calls st)))
        end
      end
    end
  end.

End Endpoint.

End Process.

(** A state with a dict cache, as a general state. *)
Definition file_of_world (f : file_state) : Process.file_contents :=
  match f with
  | NoFile => Process.Missing
  | Unparsable => Process.Garbled
  | Holds m => Process.Holds (Process.Mapping m)
  end.

Definition process_of_world (st : world) : Process.state :=
  Process.State (Process.Mapping (NARRATIVES_CACHE st))
                (file_of_world (NARRATIVES_FILE st))
                (db_queries st) (polish_calls st).

Module ProcessDemo.

(** A process that has just started with no cache file. *)
Definition fresh : Process.state :=
  Process.State (Process.Mapping ∅) Process.Missing 0 0.

(** A process that started on a cache file holding the JSON list [[]]. *)
Definition list_cache : Process.state :=
  Process.State (Process.Other (Process.OArr []))
                (Process.Holds (Process.Other (Process.OArr []))) 0 0.

End ProcessDemo.

(** * Properties *)

(** ** Comparisons *)

Lemma Qgtb_spec (x y : Q) : Qgtb x y = true <-> (y < x)%Q.
Proof. unfold Qgtb, Qlt. apply Z.ltb_lt. Qed.

Lemma Qltb_spec (x y : Q) : Qltb x y = true <-> (x < y)%Q.
Proof. unfold Qltb. apply Qgtb_spec. Qed.

Lemma fgt_4088_40835 (lat : float) :
  GeoEngine.fgt lat 40.88 = true -> GeoEngine.fgt lat 40.835 = true.
Proof.
  unfold GeoEngine.fgt. rewrite !ltb_spec.
  change (Prim2SF 40.88) with (S754_finite false 5753348523965809 (-47)).
  change (Prim2SF 40.835) with (S754_finite false 5747015336989819 (-47)).
  destruct (Prim2SF lat) as [s|s| |s m e]; unfold SFltb, SFcompare.
  - destruct s; discriminate.
  - destruct s; [discriminate | reflexivity].
  - discriminate.
  - destruct s; [discriminate|].
    destruct (-47 ?= e)%Z; try discriminate; try reflexivity.
    change (PosDef.Pos.compare_cont Eq) with Pos.compare.
    destruct (5753348523965809 ?= m)%positive eqn:E1; try discriminate.
    intros _. change (5753348523965809 < m)%positive in E1.
    destruct (5747015336989819 ?= m)%positive eqn:E2; try reflexivity.
    + apply Pos.compare_eq_iff in E2. lia.
    + change (5747015336989819 > m)%positive in E2. lia.
Qed.

(** ** Borough classifier *)

(** C2, as amended: the classifier is total over six labels, pairwise
    distinct, the sixth being ["NYC"]: every input, absent coordinates
    included, yields one of [Bronx], [Staten Island], [Queens], [Manhattan],
    [Brooklyn], [NYC], and a missing latitude or longitude yields ["NYC"]. *)
Theorem get_borough_total :
  NoDup GeoEngine.borough_labels /\
  (forall lat lon,
     In (GeoEngine.get_borough lat lon) GeoEngine.borough_labels) /\
  (forall lon, GeoEngine.get_borough None lon = "NYC") /\
  (forall lat, GeoEngine.get_borough lat None = "NYC").
Proof.
  split; [| split; [| split]].
  - apply (bool_decide_unpack _). vm_compute. reflexivity.
  - intros [lat|] [lon|]; unfold GeoEngine.get_borough, GeoEngine.borough_labels;
      repeat match goal with
             | |- context [if ?b then _ else _] => destruct b
             end; cbn; tauto.
  - reflexivity.
  - intros [lat|]; reflexivity.
Qed.

(** C2, as stated, fails where a coordinate is missing: the code answers
    ["NYC"], which is not ["Unknown"] and is not among the six labels of the
    specification. *)
Lemma get_borough_missing_is_not_unknown :
  GeoEngine.get_borough None None = "NYC" /\
  GeoEngine.get_borough None None <> "Unknown" /\
  ~ In (GeoEngine.get_borough None None) GeoEngine.spec_borough_labels.
Proof.
  split; [reflexivity | split].
  - cbn. discriminate.
  - cbn. intuition discriminate.
Qed.

(** C10: the Marble Hill check is dead code.  A latitude above 40.88 is
    above 40.835, so rule 1 has already answered [Bronx]; the classifier
    without the check returns the same label on every input. *)
Theorem marble_hill_override_unreachable :
  (forall lat : float,
     implb (GeoEngine.fgt lat 40.88) (GeoEngine.fgt lat 40.835) = true) /\
  (forall lat lon,
     GeoEngine.get_borough_no_override lat lon = GeoEngine.get_borough lat lon).
Proof.
  split.
  - intros lat. destruct (GeoEngine.fgt lat 40.88) eqn:E; [| reflexivity].
    cbn. now apply fgt_4088_40835.
  - intros [lat|] [lon|]; try reflexivity.
    unfold GeoEngine.get_borough_no_override, GeoEngine.get_borough.
    destruct (GeoEngine.fgt lat 40.835) eqn:E835; [reflexivity |].
    destruct (GeoEngine.fgt lat 40.88) eqn:E88; [| reflexivity].
    apply fgt_4088_40835 in E88. congruence.
Qed.

(** ** Narrative generator *)

(** C9: the end-to-end example.  Coordinates (40.739, -74.002) classify as
    Manhattan; vitality 90, office 20, no university and TimeDNA
    30/20/45/55 select the Nightlife character; the persona is
    ["Manhattan Nightlife District"]. *)
Theorem end_to_end_nightlife :
  let borough := GeoEngine.get_borough (Some 40.739%float) (Some (-74.002)%float) in
  let time_dna := time_dna_of 30 20 45 55 in
  borough = "Manhattan" /\
  RuleBasedNarrative.character_type 90 20 0 time_dna = Ok "Nightlife" /\
  RuleBasedNarrative.generate borough 90 20 0 time_dna =
    Ok [ ("persona", JStr "Manhattan Nightlife District");
         ("description",
          JStr ("A high-energy area (Vitality: 90%) bustling with evening social activity."
                ++ " " ++ RuleBasedNarrative.night_sentence)) ].
Proof. repeat split; vm_compute; reflexivity. Qed.

Lemma max_key_time_dna (m l e n : Z) :
  max_key (time_dna_of m l e n) =
  Ok (if (l <=? m) && (e <=? m) && (n <=? m) then "morning"
      else if (m <? l) && (e <=? l) && (n <=? l) then "lunch"
      else if (m <? e) && (l <? e) && (n <=? e) then "evening"
      else "night").
Proof.
  unfold max_key, time_dna_of, max_from; cbn [fst snd].
  repeat match goal with
         | |- context [(?a <? ?b)%Z] => destruct (Z.ltb_spec a b)
         | |- context [(?a <=? ?b)%Z] => destruct (Z.leb_spec a b)
         end; cbn; try reflexivity; lia.
Qed.

Lemma character_type_time_dna (vitality office : Q) (uni m l e n : Z) :
  exists character,
    RuleBasedNarrative.character_type vitality office uni (time_dna_of m l e n)
    = Ok character.
Proof.
  unfold RuleBasedNarrative.character_type, time_dna_of, getitem; cbn.
  repeat match goal with
         | |- context [if ?b then _ else _] => destruct b; cbn
         end; eauto.
Qed.

(** C6, as amended: for a TimeDNA of the four buckets the second sentence is
    the template of the peak bucket, the peak being the largest value with
    ties going to the earlier of morning, lunch, evening, night; the
    "consistent ridership" sentence is never the one chosen. *)
Theorem second_sentence_names_peak
    (borough : string) (vitality office : Q) (uni m l e n : Z) :
  exists character sentence,
    RuleBasedNarrative.character_type vitality office uni (time_dna_of m l e n)
      = Ok character /\
    RuleBasedNarrative.generate borough vitality office uni (time_dna_of m l e n)
      = Ok [ ("persona", JStr (RuleBasedNarrative.persona_of borough character));
             ("description",
              JStr (RuleBasedNarrative.vibe_desc borough character vitality
                    ++ " " ++ sentence)) ] /\
    (sentence = RuleBasedNarrative.morning_sentence /\ l <= m /\ e <= m /\ n <= m
     \/ sentence = RuleBasedNarrative.lunch_sentence /\ m < l /\ e <= l /\ n <= l
     \/ sentence = RuleBasedNarrative.evening_sentence /\ m < e /\ l < e /\ n <= e
     \/ sentence = RuleBasedNarrative.night_sentence /\ m < n /\ l < n /\ e < n) /\
    sentence <> RuleBasedNarrative.consistent_sentence.
Proof.
  destruct (character_type_time_dna vitality office uni m l e n) as [c Hc].
  exists c.
  unfold RuleBasedNarrative.generate. rewrite Hc, max_key_time_dna. cbn [mbind result_bind mret result_ret].
  repeat match goal with
         | |- context [(?a <? ?b)%Z] => destruct (Z.ltb_spec a b)
         | |- context [(?a <=? ?b)%Z] => destruct (Z.leb_spec a b)
         end; cbn [andb];
    eexists; (split; [reflexivity |]); (split; [reflexivity |]);
    (split; [cbn; intuition lia | cbn; discriminate]).
Qed.

(** C6, as stated, fails when no bucket dominates: with all four buckets
    equal the second sentence is the morning template, not the
    "consistent ridership" one. *)
Lemma flat_time_dna_gets_morning_sentence :
  RuleBasedNarrative.generate "Brooklyn" 50 50 0 (time_dna_of 20 20 20 20)
    = Ok [ ("persona", JStr "Brooklyn Local Stop");
           ("description",
            JStr ("A key Brooklyn transit point serving the surrounding community."
                  ++ " " ++ RuleBasedNarrative.morning_sentence)) ] /\
  RuleBasedNarrative.morning_sentence <> RuleBasedNarrative.consistent_sentence.
Proof. split; [vm_compute; reflexivity | discriminate]. Qed.

(** ** Percentile scorer *)

Lemma count_less_le_length (data : list Z) (v : Z) :
  (count_less data v <= length data)%nat.
Proof. apply length_filter. Qed.

Lemma count_less_cons (x : Z) (data : list Z) (v : Z) :
  count_less (x :: data) v =
  if decide (x < v) then S (count_less data v) else count_less data v.
Proof.
  unfold count_less. rewrite filter_cons. now destruct (decide (x < v)).
Qed.

Lemma count_less_mono (data : list Z) (v1 v2 : Z) :
  v1 <= v2 -> (count_less data v1 <= count_less data v2)%nat.
Proof.
  intros Hv. induction data as [|x data IH]; [reflexivity |].
  rewrite !count_less_cons.
  destruct (decide (x < v1)), (decide (x < v2)); lia.
Qed.

Lemma count_less_full (data : list Z) (v : Z) :
  count_less data v = length data <-> Forall (fun x => x < v) data.
Proof.
  induction data as [|x data IH]; [now split |].
  rewrite count_less_cons, Forall_cons. cbn [length].
  pose proof (count_less_le_length data v).
  destruct (decide (x < v)); split; intros H'.
  - split; [assumption | apply IH; lia].
  - f_equal. now apply IH.
  - lia.
  - tauto.
Qed.

Lemma count_less_short (data : list Z) (v : Z) :
  (count_less data v < length data)%nat <-> Exists (fun x => v <= x) data.
Proof.
  induction data as [|x data IH].
  - split; [cbn; lia | intros H; inversion H].
  - rewrite count_less_cons, Exists_cons. cbn [length].
    pose proof (count_less_le_length data v).
    destruct (decide (x < v)); split.
    + intros H'. right. apply IH. lia.
    + intros [H'|H']; [lia | apply IH in H'; lia].
    + intros _. left. lia.
    + intros _. lia.
Qed.

Lemma count_less_none (data : list Z) (v : Z) :
  (forall x, In x data -> v <= x) -> count_less data v = 0%nat.
Proof.
  induction data as [|x data IH]; intros Hmin; [reflexivity |].
  rewrite count_less_cons.
  destruct (decide (x < v)) as [Hlt|_].
  - specialize (Hmin x (or_introl eq_refl)). lia.
  - apply IH. intros y Hy. apply Hmin. now right.
Qed.

Lemma Qpct_mono (a b n : Z) :
  0 < n -> a <= b ->
  (inject_Z a / inject_Z n * 100 <= inject_Z b / inject_Z n * 100)%Q.
Proof.
  intros Hn Hab. destruct n as [|n|n]; try lia.
  unfold Qle, Qdiv, Qmult, Qinv, inject_Z; cbn. nia.
Qed.

Lemma Qpct_zero (n : Z) : (inject_Z 0 / inject_Z n * 100 == 0)%Q.
Proof. unfold Qeq, Qdiv, Qmult, Qinv, inject_Z; cbn. lia. Qed.

Lemma Qpct_full (n : Z) : 0 < n -> (inject_Z n / inject_Z n * 100 == 100)%Q.
Proof.
  intros Hn. destruct n as [|n|n]; try lia.
  unfold Qeq, Qdiv, Qmult, Qinv, inject_Z; cbn. lia.
Qed.

Lemma Qpct_lt (a n : Z) :
  0 < n -> a < n -> (inject_Z a / inject_Z n * 100 < 100)%Q.
Proof.
  intros Hn Ha. destruct n as [|n|n]; try lia.
  unfold Qlt, Qdiv, Qmult, Qinv, inject_Z; cbn. nia.
Qed.

Lemma Qpct_bounds (a n : Z) :
  0 < n -> 0 <= a <= n -> (0 <= inject_Z a / inject_Z n * 100 <= 100)%Q.
Proof.
  intros Hn Ha. destruct n as [|n|n]; try lia.
  unfold Qle, Qdiv, Qmult, Qinv, inject_Z; cbn. nia.
Qed.

Lemma Qpct_comm (a n : Z) :
  (inject_Z a / inject_Z n * 100 == 100 * inject_Z a / inject_Z n)%Q.
Proof. unfold Qdiv. ring. Qed.

Lemma rank_facts (data : list Z) (v : Z) :
  data <> [] ->
  let p := (inject_Z (Z.of_nat (count_less data v))
            / inject_Z (Z.of_nat (length data)) * 100)%Q in
  (0 <= p <= 100)%Q /\ ((p < 100)%Q <-> Exists (fun x => v <= x) data).
Proof.
  intros Hne. cbn zeta.
  pose proof (count_less_le_length data v) as Hle.
  assert (Hn : 0 < Z.of_nat (length data)) by (destruct data; cbn; [easy | lia]).
  split; [apply Qpct_bounds; lia |].
  rewrite <- count_less_short. split.
  - intros Hlt.
    destruct (decide (count_less data v = length data)) as [Hfull|Hne'];
      [| lia].
    rewrite Hfull, Qpct_full in Hlt by lia. now apply Qlt_irrefl in Hlt.
  - intros Hlt. apply Qpct_lt; lia.
Qed.

Lemma calculate_percentile_cons
    (D : gmap string (list Z)) (k : string) (x : Z) (xs : list Z)
    (value : option Z) :
  D !! k = Some (x :: xs) ->
  calculate_percentile D k value =
  (inject_Z (Z.of_nat (count_less (x :: xs) (default 0%Z value)))
   / inject_Z (Z.of_nat (length (x :: xs))) * 100)%Q.
Proof. intros H. unfold calculate_percentile. now rewrite H. Qed.

Lemma calculate_percentile_empty
    (D : gmap string (list Z)) (k : string) (value : option Z) :
  default [] (D !! k) = [] -> calculate_percentile D k value = 0%Q.
Proof. intros H. unfold calculate_percentile. now rewrite H. Qed.

(** C3, as amended: the score is 0 on an empty distribution, a null value
    counts as 0, otherwise the score is 100 * |{x : x < value}| / |data|
    (strict rank), and it lies in the closed interval [0, 100]; it is below
    100 exactly when the distribution is empty or some element is not below
    the value. *)
Theorem calculate_percentile_rank
    (D : gmap string (list Z)) (k : string) (value : option Z) :
  let data := default [] (D !! k) in
  let v := default 0 value in
  let p := calculate_percentile D k value in
  calculate_percentile D k None = calculate_percentile D k (Some 0) /\
  match data with
  | [] => p = 0%Q
  | _ => (p == 100 * inject_Z (Z.of_nat (count_less data v))
               / inject_Z (Z.of_nat (length data)))%Q
  end /\
  (0 <= p <= 100)%Q /\
  ((p < 100)%Q <-> data = [] \/ Exists (fun x => v <= x) data).
Proof.
  cbn zeta. split; [reflexivity |].
  destruct (D !! k) as [[|x xs]|] eqn:HD.
  - rewrite calculate_percentile_empty by now rewrite HD.
    repeat split; try easy. now left.
  - change (default [] (Some (x :: xs))) with (x :: xs).
    rewrite (calculate_percentile_cons D k x xs value HD).
    split; [apply Qpct_comm |].
    destruct (rank_facts (x :: xs) (default 0 value)) as [Hb Hlt];
      [discriminate |].
    split; [exact Hb |]. rewrite Hlt. split; [now right |].
    now intros [Hnil|Hex].
  - rewrite calculate_percentile_empty by now rewrite HD.
    repeat split; try easy. now left.
Qed.

Lemma calculate_percentile_rank_witness :
  (0 <= calculate_percentile Demo.distributions "bars" (Some 5%Z) <= 100)%Q /\
  (calculate_percentile Demo.distributions "bars" (Some 5%Z) < 100)%Q.
Proof.
  pose proof (calculate_percentile_rank Demo.distributions "bars"
                (Some 5%Z)) as (_ & _ & Hb & Hlt).
  split; [exact Hb |]. apply Hlt. right.
  apply Exists_cons_hd. cbn. lia.
Defined.

(** C3, as stated, fails at the upper end of the interval: a value above
    every element of the distribution scores exactly 100. *)
Lemma calculate_percentile_reaches_100 :
  (calculate_percentile {[ "bars" := [0%Z] ]} "bars" (Some 1%Z) == 100)%Q /\
  ~ (calculate_percentile {[ "bars" := [0%Z] ]} "bars" (Some 1%Z) < 100)%Q.
Proof. split; vm_compute; [reflexivity | discriminate]. Qed.

(** C7: for a fixed distribution the score is non-decreasing in the value
    (a null value counting as 0), the score of the least element of the
    distribution is 0, and on an empty distribution the score is 0 whatever
    the value. *)
Theorem calculate_percentile_monotone (D : gmap string (list Z)) (k : string) :
  (forall v1 v2 : option Z,
     default 0 v1 <= default 0 v2 ->
     (calculate_percentile D k v1 <= calculate_percentile D k v2)%Q) /\
  (forall (data : list Z) (m : Z),
     D !! k = Some data -> In m data -> (forall x, In x data -> m <= x) ->
     (calculate_percentile D k (Some m) == 0)%Q) /\
  (default [] (D !! k) = [] ->
   forall value, calculate_percentile D k value = 0%Q).
Proof.
  split; [| split].
  - intros v1 v2 Hv.
    destruct (D !! k) as [[|x xs]|] eqn:HD.
    + rewrite !calculate_percentile_empty by now rewrite HD. apply Qle_refl.
    + rewrite !(calculate_percentile_cons D k x xs _ HD).
      apply Qpct_mono; [cbn [length]; lia |].
      apply Nat2Z.inj_le. now apply count_less_mono.
    + rewrite !calculate_percentile_empty by now rewrite HD. apply Qle_refl.
  - intros data m HD Hin Hmin.
    destruct data as [|x xs]; [destruct Hin |].
    rewrite (calculate_percentile_cons D k x xs _ HD).
    change (default 0 (Some m)) with m.
    rewrite (count_less_none (x :: xs) m Hmin). apply Qpct_zero.
  - intros He value. now apply calculate_percentile_empty.
Qed.

Lemma calculate_percentile_monotone_witness :
  (calculate_percentile {[ "bars" := [3; 1; 2]%Z ]} "bars" (Some 1%Z)
   <= calculate_percentile {[ "bars" := [3; 1; 2]%Z ]} "bars" (Some 2%Z))%Q /\
  (calculate_percentile {[ "bars" := [3; 1; 2]%Z ]} "bars" (Some 1%Z) == 0)%Q /\
  calculate_percentile {[ "bars" := [3; 1; 2]%Z ]} "offices" None = 0%Q.
Proof.
  split; [| split].
  - apply (calculate_percentile_monotone {[ "bars" := [3; 1; 2]%Z ]} "bars").
    cbn. lia.
  - apply (proj1 (proj2 (calculate_percentile_monotone
                           {[ "bars" := [3; 1; 2]%Z ]} "bars")) [3; 1; 2] 1).
    + reflexivity.
    + cbn. tauto.
    + cbn. intros x Hx. lia.
  - apply (calculate_percentile_monotone {[ "bars" := [3; 1; 2]%Z ]} "offices").
    reflexivity.
Defined.

(** ** TimeDNA extraction *)

Lemma trunc_bounds (q : Q) :
  (0 <= q <= 100)%Q -> 0 <= trunc q <= 100.
Proof.
  destruct q as [n d]. unfold Qle, trunc; cbn. intros [H0 H100].
  assert (Hn : 0 <= n) by lia.
  rewrite Z.quot_div_nonneg by lia. split.
  - apply Z.div_pos; lia.
  - apply Z.div_le_upper_bound; lia.
Qed.

Lemma Qsum_bounds (xs : list Q) :
  Forall (fun q => (0 <= q <= 100)%Q) xs ->
  (0 <= Qsum xs <= 100 * inject_Z (Z.of_nat (length xs)))%Q.
Proof.
  induction 1 as [|q xs Hq _ IH].
  - split; vm_compute; discriminate.
  - cbn [Qsum fold_right length]. fold (Qsum xs).
    rewrite Nat2Z.inj_succ, <- Z.add_1_r, inject_Z_plus.
    change (inject_Z 1) with 1%Q.
    set (n := inject_Z (Z.of_nat (length xs))) in *. clearbody n.
    set (s := Qsum xs) in *. clearbody s. lra.
Qed.

Lemma mean_in_range (xs : list Q) :
  xs <> [] -> Forall (fun q => (0 <= q <= 100)%Q) xs ->
  exists m, mean xs = Num m /\ (0 <= m <= 100)%Q.
Proof.
  intros Hne Hall. destruct xs as [|x xs]; [congruence |].
  eexists; split; [reflexivity |].
  pose proof (Qsum_bounds _ Hall) as [Hlo Hhi].
  set (s := Qsum (x :: xs)) in *. set (n := inject_Z (Z.of_nat (length (x :: xs)))) in *.
  assert (Hn : (0 < n)%Q).
  { unfold n. change 0%Q with (inject_Z 0).
    rewrite <- Zlt_Qlt. cbn [length]. lia. }
  clearbody s n. split.
  - apply Qle_shift_div_l; [assumption | lra].
  - apply Qle_shift_div_r; [assumption | lra].
Qed.

Lemma slice_in_range (P : Q -> Prop) (xs : list Q) (i j : nat) :
  Forall P xs -> Forall P (slice xs i j).
Proof. intros H. unfold slice. now apply Forall_take, Forall_drop. Qed.

Lemma slice_nonempty {A} (xs : list A) (i j : nat) :
  (i < j)%nat -> (i < length xs)%nat -> slice xs i j <> [].
Proof.
  intros Hij Hi Hnil. apply (f_equal length) in Hnil.
  unfold slice in Hnil. rewrite length_take, length_drop in Hnil.
  cbn in Hnil. lia.
Qed.

Lemma nan_to_num_in_range (day : list npfloat) :
  Forall (fun x => exists q, x = Num q /\ (0 <= q <= 100)%Q) day ->
  Forall (fun q => (0 <= q <= 100)%Q) (nan_to_num day).
Proof.
  intros H. unfold nan_to_num. apply Forall_map.
  eapply Forall_impl; [exact H |].
  intros x (q & -> & Hq). exact Hq.
Qed.

Lemma slice_mean (xs : list Q) (i j : nat) :
  Forall (fun q => (0 <= q <= 100)%Q) xs ->
  (i < j)%nat -> (i < length xs)%nat ->
  exists m, mean (slice xs i j) = Num m /\ (0 <= m <= 100)%Q.
Proof.
  intros Hall Hij Hi. apply mean_in_range.
  - now apply slice_nonempty.
  - now apply slice_in_range.
Qed.

(** C8: a pulse of 24 values in [0, 100] gives four integer buckets in
    [0, 100], and the extraction does return them; on the flat fallback
    pulse of 20s all four buckets are 20. *)
Theorem time_dna_in_range (day : list npfloat) :
  length day = 24%nat ->
  Forall (fun x => exists q, x = Num q /\ (0 <= q <= 100)%Q) day ->
  exists m l e n,
    time_buckets (nan_to_num day) = Ok (time_dna_of m l e n) /\
    (forall P C station cid,
       pulse_source P C station cid = day ->
       get_clean_time_dna P C station cid = Ok (time_dna_of m l e n)) /\
    0 <= m <= 100 /\ 0 <= l <= 100 /\ 0 <= e <= 100 /\ 0 <= n <= 100 /\
    (day = flat_pulse -> m = 20 /\ l = 20 /\ e = 20 /\ n = 20).
Proof.
  intros Hlen Hall.
  pose proof (nan_to_num_in_range day Hall) as Hq.
  assert (Hlen' : length (nan_to_num day) = 24%nat)
    by (unfold nan_to_num; now rewrite length_map).
  destruct (slice_mean _ 6 10 Hq) as (m & Hm & Bm); [lia | lia |].
  destruct (slice_mean _ 11 14 Hq) as (l & Hl & Bl); [lia | lia |].
  destruct (slice_mean _ 16 20 Hq) as (e & He & Be); [lia | lia |].
  destruct (slice_mean _ 22 24 Hq) as (n1 & Hn1 & Bn1); [lia | lia |].
  destruct (slice_mean _ 0 4 Hq) as (n2 & Hn2 & Bn2); [lia | lia |].
  assert (Hrun : time_buckets (nan_to_num day) =
                 Ok (time_dna_of (trunc m) (trunc l) (trunc e)
                                 (trunc ((n1 + n2) / 2)))).
  { unfold time_buckets. rewrite Hm, Hl, He, Hn1, Hn2. reflexivity. }
  exists (trunc m), (trunc l), (trunc e), (trunc ((n1 + n2) / 2)).
  split; [exact Hrun |]. split.
  { intros P C station cid Hsrc. unfold get_clean_time_dna.
    now rewrite Hsrc. }
  assert (Bn : (0 <= (n1 + n2) / 2 <= 100)%Q).
  { split; [apply Qle_shift_div_l | apply Qle_shift_div_r]; lra. }
  repeat (split; [now apply trunc_bounds |]).
  intros ->. vm_compute in Hrun. now inversion Hrun.
Qed.

Lemma time_dna_in_range_witness :
  exists m l e n,
    time_buckets (nan_to_num flat_pulse) = Ok (time_dna_of m l e n) /\
    (forall P C station cid,
       pulse_source P C station cid = flat_pulse ->
       get_clean_time_dna P C station cid = Ok (time_dna_of m l e n)) /\
    0 <= m <= 100 /\ 0 <= l <= 100 /\ 0 <= e <= 100 /\ 0 <= n <= 100 /\
    (flat_pulse = flat_pulse -> m = 20 /\ l = 20 /\ e = 20 /\ n = 20).
Proof.
  apply (time_dna_in_range flat_pulse).
  - reflexivity.
  - apply Forall_replicate. exists 20%Q. split; [reflexivity |].
    split; vm_compute; discriminate.
Defined.

(** C4, as amended: for a station without pulse of its own, a cluster
    profile of fewer than 24 values is not used at all, the source is the
    flat pulse of 24 values 20.0 and every bucket is 20; a profile of at
    least 24 values contributes exactly its first 24. *)
Theorem cluster_fallback_source
    (P C : gmap string (list npfloat)) (station cid : string) :
  P !! normalize_key station = None ->
  let cluster_profile := default [] (C !! cid) in
  if (length cluster_profile <? 24)%nat then
    pulse_source P C station cid = flat_pulse /\
    get_clean_time_dna P C station cid = Ok (time_dna_of 20 20 20 20)
  else
    pulse_source P C station cid = take 24 cluster_profile /\
    take 24 cluster_profile = spec_padded_profile cluster_profile.
Proof.
  intros HP. cbn zeta.
  assert (Hsrc : pulse_source P C station cid =
                 if (24 <=? length (default [] (C !! cid)))%nat
                 then take 24 (default [] (C !! cid)) else flat_pulse).
  { unfold pulse_source. now rewrite HP. }
  destruct (Nat.ltb_spec (length (default [] (C !! cid))) 24) as [Hlt|Hge].
  - destruct (Nat.leb_spec 24 (length (default [] (C !! cid)))); [lia |].
    split; [exact Hsrc |].
    unfold get_clean_time_dna. rewrite Hsrc. vm_compute. reflexivity.
  - destruct (Nat.leb_spec 24 (length (default [] (C !! cid)))); [| lia].
    split; [exact Hsrc |].
    unfold spec_padded_profile. now rewrite take_app_le by lia.
Qed.

Lemma cluster_fallback_source_witness :
  pulse_source ∅ {[ "3" := replicate 23 (Num 80) ]} "Canal St" "3"
    = flat_pulse /\
  get_clean_time_dna ∅ {[ "3" := replicate 23 (Num 80) ]} "Canal St" "3"
    = Ok (time_dna_of 20 20 20 20).
Proof.
  exact (cluster_fallback_source ∅ {[ "3" := replicate 23 (Num 80) ]}
           "Canal St" "3" eq_refl).
Defined.

(** C4, as stated, fails on a short cluster profile: 23 values of 80 are
    dropped altogether, where padding would keep them and add one 20.0, and
    the buckets differ. *)
Lemma short_cluster_profile_is_not_padded :
  pulse_source ∅ {[ "3" := replicate 23 (Num 80) ]} "Canal St" "3"
    <> spec_padded_profile (replicate 23 (Num 80)) /\
  get_clean_time_dna ∅ {[ "3" := replicate 23 (Num 80) ]} "Canal St" "3"
    = Ok (time_dna_of 20 20 20 20) /\
  time_buckets (nan_to_num (spec_padded_profile (replicate 23 (Num 80))))
    = Ok (time_dna_of 80 80 80 65).
Proof.
  split; [| split]; [| vm_compute; reflexivity ..].
  intros H. apply (f_equal (fun l => l !! 0%nat)) in H.
  vm_compute in H. discriminate.
Qed.

(** ** Narrative cache *)

Section EndpointFacts.

Variable P C : gmap string (list npfloat).
Variable D : gmap string (list Z).
Variable clusters : list row.
Variable client : bool.

Local Abbreviation serve := (get_station_analysis P C D clusters client).

Lemma is_cached_true (cache : gmap string json) (station : string) :
  is_cached cache station = true ->
  exists fields, cache !! station = Some (JObj fields).
Proof.
  unfold is_cached. destruct (cache !! station) as [[]|]; try discriminate.
  eauto.
Qed.

Lemma serve_hit (station : string) (out : outside) (st : world) fields :
  NARRATIVES_CACHE st !! station = Some (JObj fields) ->
  serve station out st = (Ok (JObj fields), st).
Proof. intros H. unfold get_station_analysis. now rewrite H. Qed.

(** What a miss does, according to the table lookup and the baseline. *)
Lemma serve_miss (station : string) (out : outside) (st : world) :
  is_cached (NARRATIVES_CACHE st) station = false ->
  serve station out st =
  let st1 := World (NARRATIVES_CACHE st) (NARRATIVES_FILE st)
                   (S (db_queries st)) (polish_calls st) in
  match query_station clusters (db_up out) station with
  | [] => (Ok unknown_station, st1)
  | data :: _ =>
    match baseline P C D station data with
    | Raise e => (Raise e, st1)
    | Ok base =>
      let result := if client then apply_polish (reply out) base else base in
      (Ok (JObj result),
       save_cache (write out)
         (World (<[station := JObj result]> (NARRATIVES_CACHE st))
                (NARRATIVES_FILE st) (S (db_queries st))
                (if client then S (polish_calls st) else polish_calls st)))
    end
  end.
Proof.
  unfold is_cached, get_station_analysis. intros H.
  destruct (NARRATIVES_CACHE st !! station) as [[]|]; try discriminate;
    cbn zeta; destruct (query_station clusters (db_up out) station);
    try reflexivity;
    destruct (baseline P C D station r); try reflexivity;
    destruct client; reflexivity.
Qed.

Lemma save_cache_memory (w : write_outcome) (st : world) :
  NARRATIVES_CACHE (save_cache w st) = NARRATIVES_CACHE st /\
  db_queries (save_cache w st) = db_queries st /\
  polish_calls (save_cache w st) = polish_calls st.
Proof. now destruct w. Qed.

(** A miss always goes to the feature table. *)
Lemma serve_miss_queries (station : string) (out : outside) (st : world) :
  is_cached (NARRATIVES_CACHE st) station = false ->
  db_queries (snd (serve station out st)) = S (db_queries st).
Proof.
  intros Hc. rewrite (serve_miss station out st Hc). cbn zeta.
  destruct (query_station clusters (db_up out) station) as [|data rest];
    [reflexivity |].
  destruct (baseline P C D station data) as [base|e]; [| reflexivity].
  cbn [snd].
  match goal with
  | |- context [save_cache ?w ?s] =>
    destruct (save_cache_memory w s) as (_ & -> & _)
  end.
  reflexivity.
Qed.

End EndpointFacts.

Lemma is_cached_empty (station : string) : is_cached ∅ station = false.
Proof. unfold is_cached. now rewrite lookup_empty. Qed.

(** After a restart the cache holds what the file holds, or nothing. *)
Lemma startup_cache (readable : bool) (st : world) :
  NARRATIVES_CACHE (startup readable st) =
  match NARRATIVES_FILE st with
  | Holds m => if readable then m else ∅
  | _ => ∅
  end /\
  db_queries (startup readable st) = db_queries st.
Proof.
  unfold startup, load_cache; cbn.
  destruct (NARRATIVES_FILE st); split; reflexivity.
Qed.

Section ProcessFacts.

Variable P C : gmap string (list npfloat).
Variable D : gmap string (list Z).
Variable clusters : list row.
Variable client : bool.

Local Abbreviation request := (Process.get_station_analysis P C D clusters client).

Lemma process_hit (station : string) (out : outside) (st : Process.state)
    (m : gmap string json) (fields : dict json) :
  Process.NARRATIVES_CACHE st = Process.Mapping m ->
  m !! station = Some (JObj fields) ->
  request station out st = (Ok (JObj fields), st).
Proof.
  intros Hc Hm. unfold Process.get_station_analysis, Process.lookup_cached.
  now rewrite Hc, Hm.
Qed.

(** What a miss does on a dict cache. *)
Lemma process_miss (station : string) (out : outside) (st : Process.state)
    (m : gmap string json) :
  Process.NARRATIVES_CACHE st = Process.Mapping m ->
  is_cached m station = false ->
  request station out st =
  let st1 := Process.State (Process.Mapping m) (Process.NARRATIVES_FILE st)
                           (S (Process.db_queries st))
                           (Process.polish_calls st) in
  match query_station clusters (db_up out) station with
  | [] => (Ok unknown_station, st1)
  | data :: _ =>
    match baseline P C D station data with
    | Raise e => (Raise e, st1)
    | Ok base =>
      let result := if client then apply_polish (reply out) base else base in
      (Ok (JObj result),
       Process.save_cache (write out)
         (Process.State (Process.Mapping (<[station := JObj result]> m))
                        (Process.NARRATIVES_FILE st)
                        (S (Process.db_queries st))
                        (if client then S (Process.polish_calls st)
                         else Process.polish_calls st)))
    end
  end.
Proof.
  intros Hc Hm.
  unfold is_cached in Hm.
  unfold Process.get_station_analysis, Process.lookup_cached.
  rewrite Hc.
  destruct (m !! station) as [[]|]; try discriminate; cbn zeta;
    destruct (query_station clusters (db_up out) station);
    try reflexivity;
    destruct (baseline P C D station r); try reflexivity;
    destruct client; reflexivity.
Qed.

Lemma process_save_memory (w : write_outcome) (st : Process.state) :
  Process.NARRATIVES_CACHE (Process.save_cache w st)
    = Process.NARRATIVES_CACHE st /\
  Process.db_queries (Process.save_cache w st) = Process.db_queries st /\
  Process.polish_calls (Process.save_cache w st) = Process.polish_calls st.
Proof. now destruct w. Qed.

(** On a dict cache a request calls the polish model at most once. *)
Lemma process_polish_bound (station : string) (out : outside)
    (st : Process.state) (m : gmap string json) :
  Process.NARRATIVES_CACHE st = Process.Mapping m ->
  (Process.polish_calls (snd (request station out st))
   <= S (Process.polish_calls st))%nat.
Proof.
  intros Hc. destruct (is_cached m station) eqn:Hm.
  - destruct (is_cached_true _ _ Hm) as [fields Hf].
    rewrite (process_hit station out st m fields Hc Hf). cbn. lia.
  - rewrite (process_miss station out st m Hc Hm). cbn zeta.
    destruct (query_station clusters (db_up out) station) as [|data rest];
      [cbn; lia |].
    destruct (baseline P C D station data) as [base|e]; [| cbn; lia].
    cbn [snd].
    match goal with
    | |- context [Process.save_cache ?w ?s] =>
      destruct (process_save_memory w s) as (_ & _ & ->)
    end.
    cbn. destruct client; lia.
Qed.

(** The answer of a request does not depend on the counters. *)
Lemma process_ignores_counters (station : string) (out : outside)
    (st : Process.state) (q p : nat) :
  fst (request station out
         (Process.State (Process.NARRATIVES_CACHE st)
                        (Process.NARRATIVES_FILE st) q p))
  = fst (request station out st).
Proof.
  unfold Process.get_station_analysis.
  cbn [Process.NARRATIVES_CACHE Process.NARRATIVES_FILE
       Process.db_queries Process.polish_calls].
  destruct (Process.lookup_cached (Process.NARRATIVES_CACHE st) station)
    as [[record|]|e]; try reflexivity.
  destruct (query_station clusters (db_up out) station); try reflexivity.
  destruct (baseline P C D station r); try reflexivity.
  destruct client; cbn [Process.NARRATIVES_CACHE];
    destruct (Process.store _ _ _); reflexivity.
Qed.

(** On a state with a dict cache the general endpoint is the endpoint on
    dict caches. *)
Lemma process_of_world_request (station : string) (out : outside)
    (st : world) :
  request station out (process_of_world st) =
  (fst (get_station_analysis P C D clusters client station out st),
   process_of_world
     (snd (get_station_analysis P C D clusters client station out st))).
Proof.
  destruct (is_cached (NARRATIVES_CACHE st) station) eqn:Hm.
  - destruct (is_cached_true _ _ Hm) as [fields Hf].
    rewrite (serve_hit P C D clusters client station out st fields Hf).
    now apply process_hit with (m := NARRATIVES_CACHE st).
  - rewrite (process_miss station out (process_of_world st)
               (NARRATIVES_CACHE st) eq_refl Hm).
    rewrite (serve_miss P C D clusters client station out st Hm).
    cbn zeta.
    destruct (query_station clusters (db_up out) station) as [|data rest];
      [reflexivity |].
    destruct (baseline P C D station data) as [base|e]; [| reflexivity].
    cbn [fst snd]. destruct (write out); reflexivity.
Qed.

End ProcessFacts.

(** Writing and loading the cache file agree on the two kinds of state. *)
Lemma process_of_world_save (w : write_outcome) (st : world) :
  Process.save_cache w (process_of_world st)
  = process_of_world (save_cache w st).
Proof. now destruct w. Qed.

Lemma process_of_world_startup (readable : bool) (st : world) :
  Process.startup readable (process_of_world st)
  = process_of_world (startup readable st).
Proof.
  unfold Process.startup, startup, Process.load_cache, load_cache,
    process_of_world; cbn.
  destruct (NARRATIVES_FILE st); cbn; [reflexivity | reflexivity |].
  now destruct readable.
Qed.

(** C1, as amended: while the narrative cache is a dict, the polish model is
    called at most once over two successive requests for one station.  When
    the first request returns a record for a station that was cached, or
    whose feature row the table lookup of that request returned, the record
    is stored under the station, and the second request returns it verbatim
    and changes nothing: no table lookup, no polish call, no write.  When
    the station is not cached and the lookup of the first request returns
    no row (the table has none, or the lookup failed), the first request
    returns the "Unknown Station" record and stores nothing, so the second
    request is answered as a first one would be; it returns the same record
    when the table has no row for the station. *)
Theorem cache_idempotence
    (P C : gmap string (list npfloat)) (D : gmap string (list Z))
    (clusters : list row) (client : bool)
    (station : string) (out1 out2 : outside)
    (st : Process.state) (m : gmap string json) :
  Process.NARRATIVES_CACHE st = Process.Mapping m ->
  let request := Process.get_station_analysis P C D clusters client in
  let run1 := request station out1 st in
  let run2 := request station out2 (snd run1) in
  (Process.polish_calls (snd run2) <= S (Process.polish_calls st))%nat /\
  (forall record,
     fst run1 = Ok record ->
     is_cached m station = true
     \/ query_station clusters (db_up out1) station <> [] ->
     (exists m1,
        Process.NARRATIVES_CACHE (snd run1) = Process.Mapping m1 /\
        m1 !! station = Some record) /\
     run2 = (Ok record, snd run1)) /\
  (is_cached m station = false ->
   query_station clusters (db_up out1) station = [] ->
   run1 = (Ok unknown_station,
           Process.State (Process.Mapping m) (Process.NARRATIVES_FILE st)
                         (1 + Process.db_queries st)
                         (Process.polish_calls st)) /\
   fst run2 = fst (request station out2 st) /\
   (query_station clusters true station = [] ->
    run2 = (Ok unknown_station,
            Process.State (Process.Mapping m) (Process.NARRATIVES_FILE st)
                          (2 + Process.db_queries st)
                          (Process.polish_calls st)))).
Proof.
  intros Hcache. cbn zeta.
  destruct (is_cached m station) eqn:Hc.
  - (* hit on both requests *)
    destruct (is_cached_true _ _ Hc) as [fields Hf].
    rewrite (process_hit P C D clusters client station out1 st m fields
               Hcache Hf).
    cbn [fst snd].
    rewrite (process_hit P C D clusters client station out2 st m fields
               Hcache Hf).
    cbn [fst snd]. split; [lia |]. split; [| discriminate].
    intros record [= <-] _. split; [| reflexivity].
    exists m. now split.
  - rewrite (process_miss P C D clusters client station out1 st m Hcache Hc).
    cbn zeta.
    set (st' := Process.State (Process.Mapping m) (Process.NARRATIVES_FILE st)
                              (S (Process.db_queries st))
                              (Process.polish_calls st)).
    pose proof (process_polish_bound P C D clusters client station out2 st' m
                  eq_refl) as Hbound.
    destruct (query_station clusters (db_up out1) station)
      as [|data rest] eqn:Hq.
    + (* no row returned: the second request starts afresh *)
      cbn [fst snd]. split; [exact Hbound |]. split.
      * intros record _ [Hfalse|Hne]; [discriminate | congruence].
      * intros _ _. split; [reflexivity |]. split.
        -- unfold st'. rewrite <- Hcache.
           apply process_ignores_counters.
        -- intros Hnone.
           rewrite (process_miss P C D clusters client station out2 st' m
                      eq_refl Hc).
           assert (Hq2 : query_station clusters (db_up out2) station = []).
           { unfold query_station in *. now destruct (db_up out2). }
           rewrite Hq2. reflexivity.
    + destruct (baseline P C D station data) as [base|e] eqn:Hb.
      * (* generated and stored: the second request is a hit *)
        set (result := if client then apply_polish (reply out1) base else base).
        set (st1 := Process.save_cache _ _).
        destruct (process_save_memory (write out1)
                    (Process.State
                       (Process.Mapping (<[station := JObj result]> m))
                       (Process.NARRATIVES_FILE st)
                       (S (Process.db_queries st))
                       (if client then S (Process.polish_calls st)
                        else Process.polish_calls st)))
          as (Hmem & _ & Hcalls).
        fold st1 in Hmem, Hcalls. cbn in Hmem, Hcalls.
        assert (Hst1 : <[station := JObj result]> m !! station
                       = Some (JObj result)) by apply lookup_insert_eq.
        cbn [fst snd].
        rewrite (process_hit P C D clusters client station out2 st1 _ result
                   Hmem Hst1).
        cbn [fst snd]. split; [| split].
        -- rewrite Hcalls. destruct client; lia.
        -- intros record [= <-] _. split; [| reflexivity].
           eexists. split; [exact Hmem | exact Hst1].
        -- intros _ Hnone. discriminate Hnone.
      * (* the extraction raised: nothing is returned, nothing is stored *)
        cbn [fst snd]. split; [exact Hbound |]. split.
        -- intros record Hr. discriminate Hr.
        -- intros _ Hnone. discriminate Hnone.
Qed.

Lemma cache_idempotence_witness :
  let request :=
    Process.get_station_analysis Demo.pulses Demo.profiles
      Demo.distributions Demo.table true in
  let out := Outside true Demo.polished Written in
  let down := Outside false Demo.polished Written in
  let run1 := request "Canal St" out ProcessDemo.fresh in
  exists record,
    fst run1 = Ok record /\
    request "Canal St" out (snd run1) = (Ok record, snd run1) /\
    request "Atlantis" out ProcessDemo.fresh
      = (Ok unknown_station,
         Process.State (Process.Mapping ∅) Process.Missing 1 0) /\
    fst (request "Canal St" out (snd (request "Canal St" down ProcessDemo.fresh)))
      = fst (request "Canal St" out ProcessDemo.fresh).
Proof.
  cbn zeta.
  pose proof (cache_idempotence Demo.pulses Demo.profiles
                Demo.distributions Demo.table true "Canal St"
                (Outside true Demo.polished Written)
                (Outside true Demo.polished Written) ProcessDemo.fresh ∅
                eq_refl)
    as (_ & Hknown & _).
  pose proof (cache_idempotence Demo.pulses Demo.profiles
                Demo.distributions Demo.table true "Atlantis"
                (Outside true Demo.polished Written)
                (Outside true Demo.polished Written) ProcessDemo.fresh ∅
                eq_refl)
    as (_ & _ & Hunknown).
  pose proof (cache_idempotence Demo.pulses Demo.profiles
                Demo.distributions Demo.table true "Canal St"
                (Outside false Demo.polished Written)
                (Outside true Demo.polished Written) ProcessDemo.fresh ∅
                eq_refl)
    as (_ & _ & Hdown).
  cbn zeta in Hknown, Hunknown, Hdown.
  eexists. split; [vm_compute; reflexivity |].
  split; [| split].
  - apply Hknown; [vm_compute; reflexivity | right; vm_compute; discriminate].
  - apply Hunknown; reflexivity.
  - apply Hdown; reflexivity.
Defined.

(** C1, as stated, fails in two ways.  For a station without feature row
    the first request stores nothing, so the second has no stored record to
    return and looks the table up again.  And when the cache file held a
    JSON list, every request for a known station computes the record, calls
    the polish model and then raises at the store: two requests make two
    polish calls. *)
Lemma second_request_is_not_always_a_hit :
  let request :=
    Process.get_station_analysis Demo.pulses Demo.profiles
      Demo.distributions Demo.table true in
  let out := Outside true Demo.polished Written in
  let run1 := request "Atlantis" out ProcessDemo.fresh in
  let run2 := request "Atlantis" out (snd run1) in
  let bad1 := request "Canal St" out ProcessDemo.list_cache in
  let bad2 := request "Canal St" out (snd bad1) in
  fst run1 = Ok unknown_station /\
  Process.NARRATIVES_CACHE (snd run1) = Process.Mapping ∅ /\
  Process.db_queries (snd run2) = S (Process.db_queries (snd run1)) /\
  (exists msg, fst bad1 = Raise (TypeError msg)) /\
  (exists msg, fst bad2 = Raise (TypeError msg)) /\
  Process.polish_calls (snd bad2) = 2%nat.
Proof.
  cbn zeta. repeat split; try (eexists; vm_compute; reflexivity).
Qed.

(** C5, as amended: when the write of the cache file fails, the request
    still returns the record it computed, the same one it returns when the
    write succeeds, and the record stays in the in-memory cache while the
    file does not receive it.  The next request in the same process is
    therefore served from memory: same record, no table lookup, no polish
    call.  Generation is retried once the process has restarted and loaded
    the cache from a file that does not hold the station. *)
Theorem write_failure_keeps_record
    (P C : gmap string (list npfloat)) (D : gmap string (list Z))
    (clusters : list row) (client : bool)
    (station : string) (out1 out2 : outside) (st : world)
    (data : row) (rest : list row) (base : dict json) :
  write out1 <> Written ->
  is_cached (NARRATIVES_CACHE st) station = false ->
  query_station clusters (db_up out1) station = data :: rest ->
  baseline P C D station data = Ok base ->
  let serve := get_station_analysis P C D clusters client in
  let run1 := serve station out1 st in
  let record :=
    JObj (if client then apply_polish (reply out1) base else base) in
  fst run1 = Ok record /\
  fst (serve station (Outside (db_up out1) (reply out1) Written) st)
    = Ok record /\
  NARRATIVES_CACHE (snd run1) !! station = Some record /\
  NARRATIVES_FILE (snd run1) =
    match write out1 with
    | OpenFails => NARRATIVES_FILE st
    | _ => Unparsable
    end /\
  serve station out2 (snd run1) = (Ok record, snd run1) /\
  (forall (readable : bool) (out3 : outside),
     (forall m, NARRATIVES_FILE st = Holds m -> is_cached m station = false) ->
     let restarted := startup readable (snd run1) in
     is_cached (NARRATIVES_CACHE restarted) station = false /\
     db_queries (snd (serve station out3 restarted))
       = S (db_queries (snd run1))).
Proof.
  intros Hw Hc Hq Hb. cbn zeta.
  rewrite (serve_miss P C D clusters client station out1 st Hc).
  rewrite (serve_miss P C D clusters client station
             (Outside (db_up out1) (reply out1) Written) st Hc).
  cbn zeta. cbn [db_up reply write]. rewrite Hq, Hb. cbn [fst snd].
  set (result := if client then apply_polish (reply out1) base else base).
  set (stored := World (<[station := JObj result]> (NARRATIVES_CACHE st))
                       (NARRATIVES_FILE st) (S (db_queries st))
                       (if client then S (polish_calls st)
                        else polish_calls st)).
  assert (Hmem : NARRATIVES_CACHE (save_cache (write out1) stored) !! station
                 = Some (JObj result)).
  { destruct (save_cache_memory (write out1) stored) as (-> & _).
    apply lookup_insert_eq. }
  assert (Hfile : NARRATIVES_FILE (save_cache (write out1) stored) =
                  match write out1 with
                  | OpenFails => NARRATIVES_FILE st
                  | _ => Unparsable
                  end).
  { destruct (write out1); [congruence | reflexivity | reflexivity]. }
  repeat (split; [reflexivity || assumption |]).
  split.
  - now apply serve_hit.
  - intros readable out3 Hlacks. cbn zeta.
    destruct (startup_cache readable (save_cache (write out1) stored))
      as [Hcache Hdb].
    assert (Hmiss : is_cached
                      (NARRATIVES_CACHE
                         (startup readable (save_cache (write out1) stored)))
                      station = false).
    { rewrite Hcache, Hfile.
      destruct (write out1); [congruence | | apply is_cached_empty].
      destruct (NARRATIVES_FILE st) as [| |m] eqn:Hf;
        try apply is_cached_empty.
      destruct readable; [now apply Hlacks | apply is_cached_empty]. }
    split; [exact Hmiss |].
    rewrite (serve_miss_queries P C D clusters client station out3 _ Hmiss).
    now rewrite Hdb.
Qed.

Lemma write_failure_keeps_record_witness :
  let serve :=
    get_station_analysis Demo.pulses Demo.profiles Demo.distributions
      Demo.table true in
  let failing := Outside true Demo.polished DumpFails in
  let run1 := serve "Canal St" failing Demo.fresh in
  exists record,
    fst run1 = Ok record /\
    NARRATIVES_CACHE (snd run1) !! "Canal St" = Some record /\
    NARRATIVES_FILE (snd run1) = Unparsable /\
    serve "Canal St" failing (snd run1) = (Ok record, snd run1) /\
    db_queries (snd (serve "Canal St" failing (startup true (snd run1))))
      = S (db_queries (snd run1)).
Proof.
  cbn zeta.
  destruct (baseline Demo.pulses Demo.profiles Demo.distributions
              "Canal St" Demo.canal_st) as [base|e] eqn:Hb;
    [| vm_compute in Hb; discriminate].
  pose proof (write_failure_keeps_record
                Demo.pulses Demo.profiles Demo.distributions
                Demo.table true "Canal St"
                (Outside true Demo.polished DumpFails)
                (Outside true Demo.polished DumpFails)
                Demo.fresh Demo.canal_st [] base)
    as H.
  cbn zeta in H.
  destruct H as (H1 & _ & H3 & H4 & H5 & H6);
    [discriminate | reflexivity | reflexivity | exact Hb |].
  eexists. split; [exact H1 |]. split; [exact H3 |]. split; [exact H4 |].
  split; [exact H5 |].
  apply (H6 true (Outside true Demo.polished DumpFails)).
  intros m Hm. discriminate Hm.
Defined.

(** C5, as stated, fails on the request that follows a failed write: it is
    answered from the in-memory cache with the record of the first request,
    without table lookup and without polish call, while the file holds
    nothing usable. *)
Lemma failed_write_is_served_from_memory :
  let serve :=
    get_station_analysis Demo.pulses Demo.profiles Demo.distributions
      Demo.table true in
  let run1 :=
    serve "Canal St" (Outside true Demo.polished DumpFails) Demo.fresh in
  let run2 :=
    serve "Canal St" (Outside true NoReply Written) (snd run1) in
  NARRATIVES_FILE (snd run1) = Unparsable /\
  fst run2 = fst run1 /\
  is_cached (NARRATIVES_CACHE (snd run1)) "Canal St" = true /\
  db_queries (snd run2) = db_queries (snd run1) /\
  polish_calls (snd run2) = polish_calls (snd run1).
Proof. cbn zeta. repeat split; vm_compute; reflexivity. Qed.

(** * Further properties of the code *)

(** ** Name normalizer *)

Lemma is_alnum_lower (c : ascii) : is_alnum c = true -> is_alnum (lower c) = true.
Proof. destruct c as [[] [] [] [] [] [] [] []]; vm_compute; congruence. Qed.

Lemma lower_lower (c : ascii) : lower (lower c) = lower c.
Proof. destruct c as [[] [] [] [] [] [] [] []]; reflexivity. Qed.

Lemma lower_charset (c : ascii) :
  is_alnum c = true ->
  let n := nat_of_ascii (lower c) in
  (48 <= n <= 57 \/ 97 <= n <= 122)%nat.
Proof.
  destruct c as [[] [] [] [] [] [] [] []]; vm_compute; try congruence;
    intros _; lia.
Qed.

(** X1: normalising a key again does not change it, so a key can be used as
    a name. *)
Theorem normalize_key_idempotent (name : string) :
  normalize_key (normalize_key name) = normalize_key name.
Proof.
  induction name as [|c rest IH]; [reflexivity |].
  cbn [normalize_key]. destruct (is_alnum c) eqn:Hc; [| exact IH].
  cbn [normalize_key]. rewrite (is_alnum_lower c Hc), lower_lower.
  now rewrite IH.
Qed.

(** X2: a key consists of digits and lowercase ASCII letters only. *)
Theorem normalize_key_charset (name : string) (c : ascii) :
  In c (list_ascii_of_string (normalize_key name)) ->
  (48 <= nat_of_ascii c <= 57 \/ 97 <= nat_of_ascii c <= 122)%nat.
Proof.
  induction name as [|a rest IH]; cbn [normalize_key]; [intros [] |].
  destruct (is_alnum a) eqn:Ha; [| exact IH].
  cbn [list_ascii_of_string In]. intros [<-|Hin]; [| now apply IH].
  now apply lower_charset.
Qed.

Lemma normalize_key_charset_witness :
  (48 <= nat_of_ascii "4" <= 57 \/ 97 <= nat_of_ascii "4" <= 122)%nat.
Proof.
  apply (normalize_key_charset "Times Sq-42 St" "4").
  vm_compute. tauto.
Defined.

(** X3: the key of a concatenation is the concatenation of the keys, and a
    character outside [a-zA-Z0-9] contributes nothing: separators and
    punctuation never matter, wherever they stand. *)
Theorem normalize_key_app (a b : string) :
  normalize_key (a ++ b) = normalize_key a ++ normalize_key b /\
  (forall c, is_alnum c = false ->
     normalize_key (a ++ String c b) = normalize_key (a ++ b)).
Proof.
  assert (Happ : forall x y,
             normalize_key (x ++ y) = normalize_key x ++ normalize_key y).
  { intros x y. induction x as [|c rest IH]; [reflexivity |].
    change (String c rest ++ y) with (String c (rest ++ y)).
    cbn [normalize_key]. destruct (is_alnum c); [| exact IH].
    change (String (lower c) (normalize_key rest) ++ normalize_key y)
      with (String (lower c) (normalize_key rest ++ normalize_key y)).
    now rewrite IH. }
  split; [apply Happ |].
  intros c Hc. rewrite !Happ. cbn [normalize_key]. now rewrite Hc.
Qed.

Lemma normalize_key_app_witness :
  normalize_key ("Times Sq" ++ String "-" "42 St")
  = normalize_key ("Times Sq" ++ "42 St").
Proof.
  apply (normalize_key_app "Times Sq" "42 St"). reflexivity.
Defined.

(** ** Borough classifier *)

(** X4: with both coordinates present the answer is Bronx exactly when the
    latitude is above 40.835; no other rule produces it. *)
Theorem bronx_iff_north (lat lon : float) :
  GeoEngine.get_borough (Some lat) (Some lon) = "Bronx" <->
  GeoEngine.fgt lat 40.835 = true.
Proof.
  unfold GeoEngine.get_borough.
  destruct (GeoEngine.fgt lat 40.835) eqn:E835; [tauto |].
  destruct (GeoEngine.fgt lat 40.88) eqn:E88.
  { apply fgt_4088_40835 in E88. congruence. }
  split; [| discriminate].
  repeat match goal with
         | |- context [if ?b then _ else _] => destruct b
         end; discriminate.
Qed.

(** X5: the answer is "NYC" exactly when a coordinate is missing: present
    coordinates, whatever their values, always get a borough. *)
Theorem nyc_iff_missing (lat lon : option float) :
  GeoEngine.get_borough lat lon = "NYC" <-> lat = None \/ lon = None.
Proof.
  destruct lat as [lat|], lon as [lon|]; cbn [GeoEngine.get_borough];
    try (split; [auto | reflexivity]).
  split; [| intros [H|H]; discriminate H].
  repeat match goal with
         | |- context [if ?b then _ else _] => destruct b
         end; discriminate.
Qed.

Lemma is_nan_SF (x : float) : is_nan x = true -> Prim2SF x = S754_nan.
Proof.
  unfold is_nan. rewrite FloatAxioms.eqb_spec.
  destruct (Prim2SF x) as [s|s| |s m e]; try reflexivity;
    unfold SFeqb, SFcompare.
  - discriminate.
  - destruct s; discriminate.
  - rewrite Z.compare_refl.
    change (PosDef.Pos.compare_cont Eq m m) with (Pos.compare m m).
    rewrite Pos.compare_refl. destruct s; discriminate.
Qed.

Lemma SFltb_nan_l (y : spec_float) : SFltb S754_nan y = false.
Proof. reflexivity. Qed.

Lemma SFltb_nan_r (x : spec_float) : SFltb x S754_nan = false.
Proof. now destruct x. Qed.

(** X6: a NaN latitude fails every latitude test, so the answer depends on
    the longitude alone and is never Bronx, Manhattan or NYC. *)
Theorem nan_latitude (lat lon : float) :
  is_nan lat = true ->
  GeoEngine.get_borough (Some lat) (Some lon) =
  if GeoEngine.flt lon (-74.05) then "Staten Island"
  else if GeoEngine.fgt lon (-73.85) then "Queens"
  else "Brooklyn".
Proof.
  intros Hnan. apply is_nan_SF in Hnan.
  assert (Hgt : forall c, GeoEngine.fgt lat c = false).
  { intros c. unfold GeoEngine.fgt. rewrite FloatAxioms.ltb_spec, Hnan.
    apply SFltb_nan_r. }
  assert (Hlt : forall c, GeoEngine.flt lat c = false).
  { intros c. unfold GeoEngine.flt. rewrite FloatAxioms.ltb_spec, Hnan. reflexivity. }
  assert (Hborder :
            GeoEngine.flt lon (-74.01 + (lat - 40.68) * 0.8) = false).
  { unfold GeoEngine.flt.
    rewrite FloatAxioms.ltb_spec, FloatAxioms.add_spec, FloatAxioms.mul_spec,
      FloatAxioms.sub_spec, Hnan.
    replace (SF64add (Prim2SF (-74.01))
               (SF64mul (SF64sub S754_nan (Prim2SF 40.68)) (Prim2SF 0.8)))
      with S754_nan by (vm_compute; reflexivity).
    apply SFltb_nan_r. }
  unfold GeoEngine.get_borough.
  rewrite !Hgt, !Hlt, Hborder. cbn [andb].
  destruct (GeoEngine.flt lon (-74.05)); [reflexivity |].
  destruct (GeoEngine.fgt lon (-73.85)); reflexivity.
Qed.

Lemma nan_latitude_witness :
  GeoEngine.get_borough (Some nan) (Some (-73.95)%float) = "Brooklyn".
Proof.
  exact (nan_latitude nan (-73.95)%float eq_refl).
Defined.

(** ** Narrative generator *)

(** X7: more than two universities make the station Academic whatever the
    scores and the TimeDNA are, without a look at the TimeDNA: the persona
    is the borough's Student Hub whenever the TimeDNA has a bucket at all,
    and on an empty TimeDNA the only failure is the one of [max]. *)
Theorem academic_precedence
    (borough : string) (vitality office : Q) (uni : Z) (time_dna : dict Z) :
  2 < uni ->
  RuleBasedNarrative.character_type vitality office uni time_dna
    = Ok "Academic" /\
  match max_key time_dna with
  | Ok peak_time =>
    RuleBasedNarrative.generate borough vitality office uni time_dna
    = Ok [ ("persona", JStr (borough ++ " Student Hub"));
           ("description",
            JStr ("Defined by student foot traffic and nearby educational institutions."
                  ++ " " ++ RuleBasedNarrative.time_desc peak_time)) ]
  | Raise e =>
    time_dna = [] /\
    RuleBasedNarrative.generate borough vitality office uni time_dna = Raise e
  end.
Proof.
  intros Huni.
  assert (Hc : RuleBasedNarrative.character_type vitality office uni time_dna
               = Ok "Academic").
  { unfold RuleBasedNarrative.character_type.
    destruct (Z.gtb_spec uni 2); [reflexivity | lia]. }
  split; [exact Hc |].
  unfold RuleBasedNarrative.generate. rewrite Hc.
  destruct time_dna as [|kv rest]; cbn; [split; reflexivity | reflexivity].
Qed.

Lemma academic_precedence_witness :
  RuleBasedNarrative.character_type 10 90 3 (time_dna_of 70 20 20 20)
    = Ok "Academic".
Proof.
  apply (academic_precedence "Queens" 10 90 3 (time_dna_of 70 20 20 20)).
  lia.
Defined.

(** X8: on any TimeDNA that has the [morning] and [night] buckets the
    generator returns a record of exactly the two fields [persona] and
    [description]; the persona comes from the persona table, never from the
    "Local Station" default of the lookup. *)
Theorem generate_returns
    (borough : string) (vitality office : Q) (uni : Z) (time_dna : dict Z)
    (m n : Z) :
  dict_get time_dna "morning" = Some m ->
  dict_get time_dna "night" = Some n ->
  exists character peak_time,
    RuleBasedNarrative.character_type vitality office uni time_dna
      = Ok character /\
    max_key time_dna = Ok peak_time /\
    dict_get (RuleBasedNarrative.persona_map borough) character
      = Some (RuleBasedNarrative.persona_of borough character) /\
    RuleBasedNarrative.generate borough vitality office uni time_dna
      = Ok [ ("persona", JStr (RuleBasedNarrative.persona_of borough character));
             ("description",
              JStr (RuleBasedNarrative.vibe_desc borough character vitality
                    ++ " " ++ RuleBasedNarrative.time_desc peak_time)) ].
Proof.
  intros Hm Hn.
  assert (Hpeak : exists peak_time, max_key time_dna = Ok peak_time).
  { destruct time_dna as [|kv rest]; [discriminate Hm |]. cbn. eauto. }
  destruct Hpeak as [peak_time Hpeak].
  assert (Hchar : exists character,
             RuleBasedNarrative.character_type vitality office uni time_dna
               = Ok character /\
             dict_get (RuleBasedNarrative.persona_map borough) character
               = Some (RuleBasedNarrative.persona_of borough character)).
  { unfold RuleBasedNarrative.character_type, getitem. rewrite Hm, Hn.
    cbn [mbind result_bind mret result_ret].
    repeat (match goal with
            | |- context [if ?b then _ else _] => destruct b
            end; cbn [mbind result_bind mret result_ret]);
      eexists; (split; [reflexivity | reflexivity]). }
  destruct Hchar as (character & Hc & Hp).
  exists character, peak_time. repeat split; try assumption.
  unfold RuleBasedNarrative.generate. rewrite Hc, Hpeak. reflexivity.
Qed.

Lemma generate_returns_witness :
  exists character peak_time,
    RuleBasedNarrative.character_type 10 10 0 (time_dna_of 20 20 20 20)
      = Ok character /\
    max_key (time_dna_of 20 20 20 20) = Ok peak_time /\
    dict_get (RuleBasedNarrative.persona_map "Queens") character
      = Some (RuleBasedNarrative.persona_of "Queens" character) /\
    RuleBasedNarrative.generate "Queens" 10 10 0 (time_dna_of 20 20 20 20)
      = Ok [ ("persona", JStr (RuleBasedNarrative.persona_of "Queens" character));
             ("description",
              JStr (RuleBasedNarrative.vibe_desc "Queens" character 10
                    ++ " " ++ RuleBasedNarrative.time_desc peak_time)) ].
Proof.
  apply (generate_returns "Queens" 10 10 0 (time_dna_of 20 20 20 20) 20 20);
    reflexivity.
Defined.

(** ** Retail gap *)

(** X9: the retail gap takes one of the four values 0, 0.1, 0.6, 0.9.  It
    is 0.9 exactly when office > 60 and vitality < 40, and it is 0.1 exactly
    when vitality > 80, whatever the office score: the earlier rules need a
    vitality below 50 and cannot hide the third. *)
Theorem retail_gap_values (office_score vitality : Q) :
  (retail_gap office_score vitality = 0%Q
   \/ retail_gap office_score vitality = (1 # 10)%Q
   \/ retail_gap office_score vitality = (6 # 10)%Q
   \/ retail_gap office_score vitality = (9 # 10)%Q) /\
  (retail_gap office_score vitality = (9 # 10)%Q <->
   (60 < office_score)%Q /\ (vitality < 40)%Q) /\
  (retail_gap office_score vitality = (1 # 10)%Q <-> (80 < vitality)%Q) /\
  (retail_gap office_score vitality = (6 # 10)%Q <->
   (40 < office_score)%Q /\ (vitality < 50)%Q /\
   ~ ((60 < office_score)%Q /\ (vitality < 40)%Q)).
Proof.
  unfold retail_gap.
  pose proof (Qgtb_spec office_score 60) as H60.
  pose proof (Qltb_spec vitality 40) as H40.
  pose proof (Qgtb_spec office_score 40) as Ho40.
  pose proof (Qltb_spec vitality 50) as H50.
  pose proof (Qgtb_spec vitality 80) as H80.
  destruct (Qgtb office_score 60), (Qltb vitality 40),
    (Qgtb office_score 40), (Qltb vitality 50), (Qgtb vitality 80);
    cbn [andb];
    (split; [tauto |]);
    repeat split; try discriminate; try tauto; intros;
    repeat match goal with
           | H : _ /\ _ |- _ => destruct H
           | H : true = true <-> _ |- _ => destruct H as [H _]; specialize (H eq_refl)
           | H : false = true <-> _ |- _ => destruct H as [_ H]
           end;
    try lra; try (exfalso; lra);
    try match goal with
        | H : _ -> false = true |- _ => exfalso; assert (false = true) by (apply H; lra); discriminate
        end.
Qed.

(** ** Percentile scorer and the distributions *)

Lemma count_less_perm (d1 d2 : list Z) (v : Z) :
  d1 ≡ₚ d2 -> count_less d1 v = count_less d2 v.
Proof. intros H. unfold count_less. now rewrite H. Qed.

(** X10: the score does not depend on the order in which the stations were
    read into the distribution. *)
Theorem percentile_order_independent
    (D : gmap string (list Z)) (k : string) (d1 d2 : list Z)
    (value : option Z) :
  d1 ≡ₚ d2 ->
  calculate_percentile (<[k := d1]> D) k value
  = calculate_percentile (<[k := d2]> D) k value.
Proof.
  intros Hperm. unfold calculate_percentile.
  rewrite !lookup_insert_eq. cbn [default from_option]. unfold id.
  pose proof (Permutation_length Hperm) as Hlen.
  destruct d1 as [|x1 d1], d2 as [|x2 d2]; try discriminate Hlen;
    [reflexivity |].
  now rewrite (count_less_perm _ _ _ Hperm), Hlen.
Qed.

Lemma percentile_order_independent_witness :
  calculate_percentile (<["bars" := [5; 0; 9]]> ∅) "bars" (Some 5)
  = calculate_percentile (<["bars" := [9; 5; 0]]> ∅) "bars" (Some 5).
Proof.
  apply (percentile_order_independent ∅ "bars" [5; 0; 9] [9; 5; 0] (Some 5)).
  apply (bool_decide_unpack _). vm_compute. reflexivity.
Defined.

Lemma load_distributions_lookup (rows : list row) :
  Startup.load_distributions rows !! "bars"
    = Some (map (fun r => default 0 (n_bars r)) rows) /\
  Startup.load_distributions rows !! "offices"
    = Some (map (fun r => default 0 (n_offices r)) rows) /\
  Startup.load_distributions rows !! "unis"
    = Some (map (fun r => default 0 (n_universities r)) rows).
Proof.
  unfold Startup.load_distributions. repeat split.
Qed.

Lemma member_score_below_100 (data : list Z) (D : gmap string (list Z))
    (k : string) (x : Z) :
  D !! k = Some data -> In x data ->
  (0 <= calculate_percentile D k (Some x) < 100)%Q.
Proof.
  intros HD Hin. destruct data as [|y ys]; [destruct Hin |].
  rewrite (calculate_percentile_cons D k y ys _ HD).
  destruct (rank_facts (y :: ys) (default 0 (Some x))) as [Hb Hlt];
    [discriminate |].
  split; [apply Hb |]. apply Hlt.
  apply Exists_exists. exists x. split; [now apply list_elem_of_In |].
  cbn. lia.
Qed.

(** X11: with the distributions built from the station table, the vitality
    and office scores of every station of that table lie in [0, 100): a
    station is never counted below itself. *)
Theorem table_scores_below_100 (rows : list row) (r : row) :
  In r rows ->
  let D := Startup.load_distributions rows in
  (0 <= calculate_percentile D "bars" (n_bars r) < 100)%Q /\
  (0 <= calculate_percentile D "offices" (n_offices r) < 100)%Q.
Proof.
  intros Hin. cbn zeta.
  destruct (load_distributions_lookup rows) as (Hb & Ho & _).
  assert (Hnone : forall D k, calculate_percentile D k None
                              = calculate_percentile D k (Some 0))
    by reflexivity.
  split.
  - destruct (n_bars r) as [b|] eqn:E; [| rewrite Hnone];
      apply (member_score_below_100 _ _ _ _ Hb);
      apply in_map_iff; exists r; rewrite E; now split.
  - destruct (n_offices r) as [b|] eqn:E; [| rewrite Hnone];
      apply (member_score_below_100 _ _ _ _ Ho);
      apply in_map_iff; exists r; rewrite E; now split.
Qed.

Lemma table_scores_below_100_witness :
  (0 <= calculate_percentile (Startup.load_distributions Demo.table)
          "bars" (Some 5%Z) < 100)%Q /\
  (0 <= calculate_percentile (Startup.load_distributions Demo.table)
          "offices" (Some 2%Z) < 100)%Q.
Proof.
  apply (table_scores_below_100 Demo.table Demo.canal_st).
  cbn. tauto.
Defined.

(** ** Pulse normalisation at startup *)

Lemma Qgtb_false (x y : Q) : Qgtb x y = false <-> (x <= y)%Q.
Proof.
  pose proof (Qgtb_spec x y) as H. destruct (Qgtb x y).
  - split; [discriminate |]. intros Hle. destruct H as [H _].
    specialize (H eq_refl). lra.
  - split; [| reflexivity]. intros _. apply Qnot_lt_le. intros Hlt.
    apply H in Hlt. discriminate.
Qed.

Lemma Qmaxb_cases (a b : Q) :
  (Startup.Qmaxb a b = a \/ Startup.Qmaxb a b = b) /\
  (a <= Startup.Qmaxb a b)%Q /\ (b <= Startup.Qmaxb a b)%Q.
Proof.
  unfold Startup.Qmaxb. destruct (Qgtb b a) eqn:E.
  - apply Qgtb_spec in E. repeat split; [now right | lra | lra].
  - apply Qgtb_false in E. repeat split; [now left | lra | lra].
Qed.

Lemma Qminb_cases (a b : Q) :
  (Startup.Qminb a b = a \/ Startup.Qminb a b = b) /\
  (Startup.Qminb a b <= a)%Q /\ (Startup.Qminb a b <= b)%Q.
Proof.
  unfold Startup.Qminb, Qltb. destruct (Qgtb a b) eqn:E.
  - apply Qgtb_spec in E. repeat split; [now right | lra | lra].
  - apply Qgtb_false in E. repeat split; [now left | lra | lra].
Qed.

Lemma arr_max_spec (x : Q) (xs : list Q) :
  In (Startup.arr_max x xs) (x :: xs) /\
  forall a, In a (x :: xs) -> (a <= Startup.arr_max x xs)%Q.
Proof.
  unfold Startup.arr_max. revert x.
  induction xs as [|y ys IH]; intros x; cbn [fold_left].
  - split; [now left |]. intros a [<-|[]]. lra.
  - destruct (IH (Startup.Qmaxb x y)) as [Hin Hle].
    destruct (Qmaxb_cases x y) as ([Hm|Hm] & Hx & Hy).
    + split.
      * destruct Hin as [Hin|Hin]; [left; congruence | right; now right].
      * intros a [<-|[<-|Ha]].
        -- eapply Qle_trans; [exact Hx |]. apply Hle. now left.
        -- eapply Qle_trans; [exact Hy |]. apply Hle. now left.
        -- apply Hle. now right.
    + split.
      * destruct Hin as [Hin|Hin]; [right; left; congruence | right; now right].
      * intros a [<-|[<-|Ha]].
        -- eapply Qle_trans; [exact Hx |]. apply Hle. now left.
        -- eapply Qle_trans; [exact Hy |]. apply Hle. now left.
        -- apply Hle. now right.
Qed.

Lemma arr_min_spec (x : Q) (xs : list Q) :
  In (Startup.arr_min x xs) (x :: xs) /\
  forall a, In a (x :: xs) -> (Startup.arr_min x xs <= a)%Q.
Proof.
  unfold Startup.arr_min. revert x.
  induction xs as [|y ys IH]; intros x; cbn [fold_left].
  - split; [now left |]. intros a [<-|[]]. lra.
  - destruct (IH (Startup.Qminb x y)) as [Hin Hle].
    destruct (Qminb_cases x y) as ([Hm|Hm] & Hx & Hy).
    + split.
      * destruct Hin as [Hin|Hin]; [left; congruence | right; now right].
      * intros a [<-|[<-|Ha]].
        -- eapply Qle_trans; [| exact Hx]. apply Hle. now left.
        -- eapply Qle_trans; [| exact Hy]. apply Hle. now left.
        -- apply Hle. now right.
    + split.
      * destruct Hin as [Hin|Hin]; [right; left; congruence | right; now right].
      * intros a [<-|[<-|Ha]].
        -- eapply Qle_trans; [| exact Hx]. apply Hle. now left.
        -- eapply Qle_trans; [| exact Hy]. apply Hle. now left.
        -- apply Hle. now right.
Qed.

Lemma scale_bounds (a mn mx : Q) :
  (mn <= a <= mx)%Q -> (mn < mx)%Q ->
  (0 <= (a - mn) / (mx - mn) * 100 <= 100)%Q.
Proof.
  intros [Hlo Hhi] Hlt.
  assert (Hr : (0 < mx - mn)%Q) by lra.
  assert (H0 : (0 <= (a - mn) / (mx - mn))%Q)
    by (apply Qle_shift_div_l; [exact Hr | lra]).
  assert (H1 : ((a - mn) / (mx - mn) <= 1)%Q)
    by (apply Qle_shift_div_r; [exact Hr | lra]).
  set (t := ((a - mn) / (mx - mn))%Q) in *. clearbody t. lra.
Qed.

Lemma map_const_replicate {A B} (b : B) (l : list A) :
  map (fun _ => b) l = replicate (length l) b.
Proof. induction l as [|x l IH]; [reflexivity |]. cbn. now rewrite IH. Qed.

Lemma normalize_pulse_ok (values : list Q) :
  values <> [] ->
  exists arr,
    Startup.normalize_pulse values = Ok arr /\
    length arr = length values /\
    Forall (fun v => exists q, v = Num q /\ (0 <= q <= 100)%Q) arr.
Proof.
  intros Hne. destruct values as [|x xs]; [congruence |].
  unfold Startup.normalize_pulse.
  destruct (arr_max_spec x xs) as [_ Hmax].
  destruct (arr_min_spec x xs) as [_ Hmin].
  set (mx := Startup.arr_max x xs) in *.
  set (mn := Startup.arr_min x xs) in *.
  destruct (Qgtb (mx - mn) 0) eqn:Hr; [| destruct (Qgtb mx 0)].
  - apply Qgtb_spec in Hr. eexists. split; [reflexivity |].
    split; [apply length_map |].
    apply Forall_map, Forall_forall. intros a Ha.
    apply list_elem_of_In in Ha.
    eexists. split; [reflexivity |].
    apply scale_bounds; [split; [now apply Hmin | now apply Hmax] | lra].
  - eexists. split; [reflexivity |]. split; [apply length_map |].
    apply Forall_map, Forall_forall. intros a _.
    exists 50%Q. split; [reflexivity |]. split; vm_compute; discriminate.
  - eexists. split; [reflexivity |]. split; [apply length_map |].
    apply Forall_map, Forall_forall. intros a _.
    exists 5%Q. split; [reflexivity |]. split; vm_compute; discriminate.
Qed.

(** X12: the normalisation of a non-empty array of hourly averages never
    raises, keeps the length, and every value it gives is a number in
    [0, 100]. *)
Theorem normalize_pulse_range (values : list Q) :
  values <> [] ->
  exists arr,
    Startup.normalize_pulse values = Ok arr /\
    length arr = length values /\
    Forall (fun v => exists q, v = Num q /\ (0 <= q <= 100)%Q) arr.
Proof.
  intros Hne.
  destruct (normalize_pulse_ok values Hne) as (arr & Hrun & Hlen & Hall).
  exists arr. repeat split; assumption.
Qed.

Lemma normalize_pulse_range_witness :
  exists arr,
    Startup.normalize_pulse [10; 60; 110]%Q = Ok arr /\
    length arr = 3%nat /\
    Forall (fun v => exists q, v = Num q /\ (0 <= q <= 100)%Q) arr.
Proof.
  apply (normalize_pulse_range [10; 60; 110]%Q). discriminate.
Defined.

(** X13: when the hourly averages are not all equal, the pulse is the
    linear rescaling of the array onto [0, 100]: with [mn] the least and
    [mx] the greatest average, each value [a] becomes
    [(a - mn) / (mx - mn) * 100], so the quietest hour is at 0 and the
    busiest at 100. *)
Theorem normalize_pulse_linear (values : list Q) (a b : Q) :
  In a values -> In b values -> (a < b)%Q ->
  exists mn mx,
    In mn values /\ In mx values /\ (mn < mx)%Q /\
    (forall v, In v values -> (mn <= v <= mx)%Q) /\
    Startup.normalize_pulse values
      = Ok (map (fun v => Num ((v - mn) / (mx - mn) * 100)%Q) values) /\
    ((mn - mn) / (mx - mn) * 100 == 0)%Q /\
    ((mx - mn) / (mx - mn) * 100 == 100)%Q.
Proof.
  intros Ha Hb Hab. destruct values as [|x xs]; [destruct Ha |].
  destruct (arr_max_spec x xs) as [Hmaxin Hmax].
  destruct (arr_min_spec x xs) as [Hminin Hmin].
  exists (Startup.arr_min x xs), (Startup.arr_max x xs).
  assert (Hlt : (Startup.arr_min x xs < Startup.arr_max x xs)%Q).
  { pose proof (Hmin a Ha). pose proof (Hmax b Hb). lra. }
  split; [exact Hminin |]. split; [exact Hmaxin |]. split; [exact Hlt |].
  split; [intros v Hv; split; [now apply Hmin | now apply Hmax] |].
  split.
  - unfold Startup.normalize_pulse.
    assert (Hr : Qgtb (Startup.arr_max x xs - Startup.arr_min x xs) 0 = true)
      by (apply Qgtb_spec; lra).
    now rewrite Hr.
  - set (mn := Startup.arr_min x xs) in *.
    set (mx := Startup.arr_max x xs) in *. clearbody mn mx.
    split; field; lra.
Qed.

Lemma normalize_pulse_linear_witness :
  exists mn mx,
    In mn [10; 60; 110]%Q /\ In mx [10; 60; 110]%Q /\ (mn < mx)%Q /\
    (forall v, In v [10; 60; 110]%Q -> (mn <= v <= mx)%Q) /\
    Startup.normalize_pulse [10; 60; 110]%Q
      = Ok (map (fun v => Num ((v - mn) / (mx - mn) * 100)%Q)
                [10; 60; 110]%Q) /\
    ((mn - mn) / (mx - mn) * 100 == 0)%Q /\
    ((mx - mn) / (mx - mn) * 100 == 100)%Q.
Proof.
  apply (normalize_pulse_linear [10; 60; 110]%Q 10 110).
  - cbn. tauto.
  - cbn. tauto.
  - reflexivity.
Defined.

Lemma Qgtb_compat (x x' y : Q) : (x == x')%Q -> Qgtb x y = Qgtb x' y.
Proof.
  intros Hx. destruct (Qgtb x' y) eqn:E.
  - apply Qgtb_spec. apply Qgtb_spec in E. lra.
  - apply Qgtb_false. apply Qgtb_false in E. lra.
Qed.

(** X14: a station whose hourly averages are all equal gets a flat pulse:
    50 in every slot when the common value is positive, 5 in every slot
    when it is zero or negative. *)
Theorem normalize_pulse_constant (values : list Q) (c : Q) :
  values <> [] ->
  (forall v, In v values -> (v == c)%Q) ->
  Startup.normalize_pulse values
  = Ok (replicate (length values) (Num (if Qgtb c 0 then 50 else 5))).
Proof.
  intros Hne Hall. destruct values as [|x xs]; [congruence |].
  destruct (arr_max_spec x xs) as [Hmaxin _].
  destruct (arr_min_spec x xs) as [Hminin _].
  apply Hall in Hmaxin. apply Hall in Hminin.
  unfold Startup.normalize_pulse.
  assert (Hr : Qgtb (Startup.arr_max x xs - Startup.arr_min x xs) 0 = false)
    by (apply Qgtb_false; lra).
  rewrite Hr, (Qgtb_compat _ c 0 Hmaxin).
  destruct (Qgtb c 0); now rewrite map_const_replicate.
Qed.

Lemma normalize_pulse_constant_witness :
  Startup.normalize_pulse (replicate 24 0%Q) = Ok (replicate 24 (Num 5)).
Proof.
  apply (normalize_pulse_constant (replicate 24 0%Q) 0).
  - discriminate.
  - intros v Hv. apply list_elem_of_In, elem_of_replicate in Hv.
    destruct Hv as [-> _]. reflexivity.
Defined.

(** ** Building the pulse cache *)

Lemma dict_get_In {V} (d : dict V) (k : string) (v : V) :
  dict_get d k = Some v -> In (k, v) d.
Proof.
  induction d as [|[k' v'] d IH]; cbn; [discriminate |].
  destruct (String.eqb_spec k' k) as [->|Hne].
  - intros [= ->]. now left.
  - intros H. right. now apply IH.
Qed.

Lemma dict_get_setitem {V} (d : dict V) (k k' : string) (v : V) :
  dict_get (setitem d k v) k' =
  if String.eqb k k' then Some v else dict_get d k'.
Proof.
  induction d as [|[k0 v0] d IH]; cbn.
  - reflexivity.
  - destruct (String.eqb_spec k0 k) as [->|Hne]; cbn.
    + destruct (String.eqb k k'); reflexivity.
    + rewrite IH. destruct (String.eqb_spec k0 k') as [->|Hne'].
      * destruct (String.eqb_spec k k') as [->|_]; [congruence | reflexivity].
      * reflexivity.
Qed.

Lemma setitem_values {V} (P : V -> Prop) (d : dict V) (k : string) (v : V) :
  Forall (fun kv => P (snd kv)) d -> P v ->
  Forall (fun kv => P (snd kv)) (setitem d k v).
Proof.
  intros Hd Hv. induction Hd as [|[k0 v0] d H0 Hd IH]; cbn.
  - constructor; [exact Hv | constructor].
  - destruct (String.eqb k0 k); constructor; assumption.
Qed.

Lemma record_hour_lengths (temp : dict (list Q)) (r : Startup.traffic_row) :
  Forall (fun kv => length (snd kv) = 24%nat) temp ->
  Forall (fun kv => length (snd kv) = 24%nat) (Startup.record_hour temp r).
Proof.
  intros Htemp. unfold Startup.record_hour.
  apply (setitem_values (fun v => length v = 24%nat)); [exact Htemp |].
  assert (Hv : length (default (replicate 24 0%Q)
                         (dict_get temp
                            (Startup.normalize_name (Startup.t_station r))))
               = 24%nat).
  { destruct (dict_get temp _) as [values|] eqn:E; cbn.
    - apply dict_get_In in E. rewrite Forall_forall in Htemp.
      apply list_elem_of_In in E. exact (Htemp _ E).
    - reflexivity. }
  destruct (_ && _); [now rewrite length_insert | exact Hv].
Qed.

Lemma temp_cache_lengths (rows : list Startup.traffic_row)
    (temp : dict (list Q)) :
  Forall (fun kv => length (snd kv) = 24%nat) temp ->
  Forall (fun kv => length (snd kv) = 24%nat)
         (fold_left Startup.record_hour rows temp).
Proof.
  revert temp. induction rows as [|r rows IH]; intros temp Htemp;
    [exact Htemp |].
  cbn [fold_left]. apply IH. now apply record_hour_lengths.
Qed.

(** What the second loop leaves in the cache when every array has 24
    values. *)
Lemma store_pulses_spec (items : dict (list Q))
    (cache : gmap string (list npfloat)) :
  Forall (fun kv => length (snd kv) = 24%nat) items ->
  snd (Startup.store_pulses items cache) = None /\
  (forall k, is_Some (dict_get items k) \/ is_Some (cache !! k) ->
             is_Some (fst (Startup.store_pulses items cache) !! k)) /\
  (forall k pulse,
     fst (Startup.store_pulses items cache) !! k = Some pulse ->
     cache !! k = Some pulse \/
     exists values, length values = 24%nat /\
                    Startup.normalize_pulse values = Ok pulse).
Proof.
  intros Hitems. revert cache.
  induction Hitems as [|[s values] items Hlen _ IH]; intros cache.
  - cbn. split; [reflexivity |]. split.
    + intros k [[v Hv]|Hc]; [discriminate Hv | exact Hc].
    + intros k pulse H. now left.
  - cbn [Startup.store_pulses]. cbn [snd] in Hlen.
    destruct (normalize_pulse_ok values) as (arr & Harr & _).
    { intros ->. discriminate Hlen. }
    rewrite Harr.
    destruct (IH (<[s := arr]> cache)) as (Hnone & Hkeys & Hvals).
    split; [exact Hnone |]. split.
    + intros k Hk. apply Hkeys. cbn [dict_get] in Hk.
      destruct (String.eqb_spec s k) as [->|Hne].
      * right. rewrite lookup_insert_eq. eauto.
      * destruct Hk as [Hk|Hk]; [now left | right].
        now rewrite lookup_insert_ne.
    + intros k pulse Hk. destruct (Hvals k pulse Hk) as [Hc|Hn];
        [| now right].
      destruct (decide (s = k)) as [->|Hne].
      * rewrite lookup_insert_eq in Hc. injection Hc as <-.
        right. now exists values.
      * rewrite lookup_insert_ne in Hc by exact Hne. now left.
Qed.

Lemma preload_pulses_entries (raw_data : list Startup.traffic_row) :
  snd (Startup.store_pulses (fold_left Startup.record_hour raw_data []) ∅)
    = None /\
  forall key pulse,
    Startup.preload_pulses raw_data ∅ !! key = Some pulse ->
    length pulse = 24%nat /\
    Forall (fun v => exists q, v = Num q /\ (0 <= q <= 100)%Q) pulse.
Proof.
  pose proof (temp_cache_lengths raw_data [] (List.Forall_nil _)) as Htemp.
  destruct (store_pulses_spec _ ∅ Htemp) as (Hnone & _ & Hvals).
  split; [exact Hnone |].
  intros key pulse Hk. unfold Startup.preload_pulses in Hk.
  destruct (Hvals key pulse Hk) as [Hc|(values & Hlen & Hn)].
  - rewrite lookup_empty in Hc. discriminate.
  - destruct (normalize_pulse_ok values) as (arr & Harr & Hl & Hr).
    { intros ->. discriminate Hlen. }
    rewrite Harr in Hn. injection Hn as <-.
    split; [congruence | exact Hr].
Qed.

(** X15: the pulse cache built at startup is well formed: the second loop
    never raises, and every pulse stored has exactly 24 values, each a
    number in [0, 100], whatever the rows of the hourly query are (hours
    outside 0..23, null or NaN volumes, any number of rows per station). *)
Theorem preload_pulses_well_formed (raw_data : list Startup.traffic_row) :
  snd (Startup.store_pulses (fold_left Startup.record_hour raw_data []) ∅)
    = None /\
  forall key pulse,
    Startup.preload_pulses raw_data ∅ !! key = Some pulse ->
    length pulse = 24%nat /\
    Forall (fun v => exists q, v = Num q /\ (0 <= q <= 100)%Q) pulse.
Proof.
  destruct (preload_pulses_entries raw_data) as [Hnone Hall].
  split; [exact Hnone |].
  intros key pulse Hk. exact (Hall key pulse Hk).
Qed.

Lemma preload_pulses_well_formed_witness :
  exists pulse,
    Startup.preload_pulses
      [Startup.TrafficRow (Some "Canal St") 8 (Some (Num 120));
       Startup.TrafficRow (Some "CANAL ST.") 30 (Some NaN)] ∅
      !! "canalst" = Some pulse /\
    length pulse = 24%nat /\
    Forall (fun v => exists q, v = Num q /\ (0 <= q <= 100)%Q) pulse.
Proof.
  eexists. split; [vm_compute; reflexivity |].
  apply (proj2 (preload_pulses_well_formed
                  [Startup.TrafficRow (Some "Canal St") 8 (Some (Num 120));
                   Startup.TrafficRow (Some "CANAL ST.") 30 (Some NaN)])
           "canalst").
  vm_compute. reflexivity.
Defined.

Lemma first_loop_ok (raw_data : list Startup.raw_traffic_row)
    (temp : dict (list Q)) :
  Forall (fun r => is_Some (Startup.raw_hr r)) raw_data ->
  Forall (fun kv => length (snd kv) = 24%nat) temp ->
  exists temp',
    Startup.first_loop raw_data temp = Ok temp' /\
    Forall (fun kv => length (snd kv) = 24%nat) temp' /\
    (forall k, is_Some (dict_get temp k) -> is_Some (dict_get temp' k)) /\
    (forall r, In r raw_data ->
       is_Some (dict_get temp'
                  (Startup.normalize_value (Startup.raw_station r)))).
Proof.
  intros Hhours. revert temp.
  induction Hhours as [|r rest [h Hh] _ IH]; intros temp Htemp.
  - exists temp. cbn. repeat split; [exact Htemp | auto | intros r []].
  - cbn [Startup.first_loop]. unfold Startup.record_raw_hour. rewrite Hh.
    set (key := Startup.normalize_value (Startup.raw_station r)).
    set (values := default (replicate 24 0%Q) (dict_get temp key)).
    set (updated := if (0 <=? h) && (h <? 24)
                    then <[Z.to_nat h := Startup.clean_volume (Startup.raw_vol r)]>
                           values
                    else values).
    assert (Hv : length values = 24%nat).
    { unfold values. destruct (dict_get temp key) as [vs|] eqn:E; cbn.
      - apply dict_get_In, list_elem_of_In in E.
        rewrite Forall_forall in Htemp. exact (Htemp _ E).
      - reflexivity. }
    assert (Hu : length updated = 24%nat).
    { unfold updated. destruct (_ && _); [now rewrite length_insert | exact Hv]. }
    destruct (IH (setitem temp key updated)) as (temp' & Hrun & Hlen & Hkeep & Hin).
    { now apply (setitem_values (fun v => length v = 24%nat)). }
    exists temp'. split; [exact Hrun |]. split; [exact Hlen |]. split.
    + intros k Hk. apply Hkeep. rewrite dict_get_setitem.
      destruct (String.eqb key k); [eauto | exact Hk].
    + intros r' [<-|Hr']; [| now apply Hin].
      apply Hkeep. rewrite dict_get_setitem.
      fold key. rewrite String.eqb_refl. eauto.
Qed.

Lemma first_loop_raises (raw_data : list Startup.raw_traffic_row)
    (temp : dict (list Q)) :
  Exists (fun r => Startup.raw_hr r = None) raw_data ->
  exists e, Startup.first_loop raw_data temp = Raise e.
Proof.
  intros Hex. revert temp.
  induction Hex as [r rest Hnone|r rest _ IH]; intros temp;
    cbn [Startup.first_loop]; unfold Startup.record_raw_hour.
  - rewrite Hnone. eauto.
  - destruct (Startup.raw_hr r); [apply IH | eauto].
Qed.

(** X16: when no row of the hourly query has a NULL hour, every station
    that occurs in a row gets a pulse, stored under [normalize_key] of the
    value of its name: the empty key for [None], ["nan"] for the NaN of a
    NULL name.  When some row has a NULL hour the first loop raises inside
    the [try] and no pulse is stored at all. *)
Theorem preload_pulses_covers (raw_data : list Startup.raw_traffic_row) :
  (Forall (fun r => is_Some (Startup.raw_hr r)) raw_data ->
   forall r, In r raw_data ->
     is_Some (Startup.preload_raw_pulses raw_data ∅
                !! Startup.normalize_value (Startup.raw_station r))) /\
  (Exists (fun r => Startup.raw_hr r = None) raw_data ->
   forall cache, Startup.preload_raw_pulses raw_data cache = cache).
Proof.
  split.
  - intros Hhours r Hin. unfold Startup.preload_raw_pulses.
    destruct (first_loop_ok raw_data [] Hhours (List.Forall_nil _))
      as (temp & -> & Hlen & _ & Hkeys).
    destruct (store_pulses_spec temp ∅ Hlen) as (_ & Hstored & _).
    apply Hstored. left. now apply Hkeys.
  - intros Hex cache. unfold Startup.preload_raw_pulses.
    destruct (first_loop_raises raw_data [] Hex) as [e ->]. reflexivity.
Qed.

Lemma preload_pulses_covers_witness :
  is_Some (Startup.preload_raw_pulses
             [Startup.RawTrafficRow (Startup.StationStr "Canal St") (Some 8)
                (Some (Num 120));
              Startup.RawTrafficRow Startup.StationNaN (Some 9) None] ∅
             !! "nan") /\
  Startup.preload_raw_pulses
    [Startup.RawTrafficRow (Startup.StationStr "Canal St") (Some 8)
       (Some (Num 120));
     Startup.RawTrafficRow (Startup.StationStr "Wall St") None None] ∅
  = ∅.
Proof.
  split.
  - apply (proj1 (preload_pulses_covers
                    [Startup.RawTrafficRow (Startup.StationStr "Canal St")
                       (Some 8) (Some (Num 120));
                     Startup.RawTrafficRow Startup.StationNaN (Some 9) None])
             ltac:(repeat constructor; eauto)
             (Startup.RawTrafficRow Startup.StationNaN (Some 9) None)).
    cbn. tauto.
  - apply (proj2 (preload_pulses_covers
                    [Startup.RawTrafficRow (Startup.StationStr "Canal St")
                       (Some 8) (Some (Num 120));
                     Startup.RawTrafficRow (Startup.StationStr "Wall St")
                       None None])).
    apply Exists_cons_tl, Exists_cons_hd. reflexivity.
Defined.

(** ** TimeDNA over the tables built at startup *)

Lemma mean_num (xs : list Q) : xs <> [] -> exists q, mean xs = Num q.
Proof. destruct xs; [congruence | eauto]. Qed.

Lemma int_mean_ok (day : list Q) (i j : nat) :
  (i < j)%nat -> (i < length day)%nat ->
  exists z, int (mean (slice day i j)) = Ok z.
Proof.
  intros Hij Hi.
  destruct (mean_num (slice day i j)) as [q Hq];
    [now apply slice_nonempty |].
  rewrite Hq. cbn. eauto.
Qed.

(** X17: the bucket computation succeeds exactly on arrays of at least 23
    values; on a shorter one the late-night slice [22:24] is empty, its mean
    is NaN and [int] raises. *)
Theorem time_buckets_ok_iff (day : list Q) :
  (exists time_dna, time_buckets day = Ok time_dna) <->
  (23 <= length day)%nat.
Proof.
  split.
  - intros [d Hd].
    destruct (Nat.le_gt_cases 23 (length day)) as [Hle|Hlt]; [exact Hle |].
    exfalso. unfold time_buckets in Hd.
    assert (Hlate : slice day 22 24 = []).
    { unfold slice. rewrite drop_ge by lia. reflexivity. }
    rewrite Hlate in Hd. cbn [mean add div int] in Hd.
    destruct (int (mean (slice day 6 10))); [| discriminate Hd].
    destruct (int (mean (slice day 11 14))); [| discriminate Hd].
    destruct (int (mean (slice day 16 20))); discriminate Hd.
  - intros Hlen. unfold time_buckets.
    destruct (int_mean_ok day 6 10) as [m ->]; [lia | lia |].
    destruct (int_mean_ok day 11 14) as [l ->]; [lia | lia |].
    destruct (int_mean_ok day 16 20) as [e ->]; [lia | lia |].
    destruct (mean_num (slice day 22 24)) as [a ->];
      [apply slice_nonempty; lia |].
    destruct (mean_num (slice day 0 4)) as [b ->];
      [apply slice_nonempty; lia |].
    cbn. eauto.
Qed.

Lemma time_buckets_bounds (day : list Q) :
  (23 <= length day)%nat ->
  Forall (fun q => (0 <= q <= 100)%Q) day ->
  exists m l e n,
    time_buckets day = Ok (time_dna_of m l e n) /\
    0 <= m <= 100 /\ 0 <= l <= 100 /\ 0 <= e <= 100 /\ 0 <= n <= 100.
Proof.
  intros Hlen Hq.
  destruct (slice_mean _ 6 10 Hq) as (m & Hm & Bm); [lia | lia |].
  destruct (slice_mean _ 11 14 Hq) as (l & Hl & Bl); [lia | lia |].
  destruct (slice_mean _ 16 20 Hq) as (e & He & Be); [lia | lia |].
  destruct (slice_mean _ 22 24 Hq) as (n1 & Hn1 & Bn1); [lia | lia |].
  destruct (slice_mean _ 0 4 Hq) as (n2 & Hn2 & Bn2); [lia | lia |].
  exists (trunc m), (trunc l), (trunc e), (trunc ((n1 + n2) / 2)).
  split.
  { unfold time_buckets. rewrite Hm, Hl, He, Hn1, Hn2. reflexivity. }
  assert (Bn : (0 <= (n1 + n2) / 2 <= 100)%Q).
  { split; [apply Qle_shift_div_l | apply Qle_shift_div_r]; lra. }
  repeat split; now apply trunc_bounds.
Qed.

Lemma nan_to_num_clean (day : list npfloat) :
  Forall (fun x => match x with
                   | Num q => (0 <= q <= 100)%Q
                   | NaN => True
                   end) day ->
  Forall (fun q => (0 <= q <= 100)%Q) (nan_to_num day).
Proof.
  intros H. unfold nan_to_num. apply Forall_map.
  eapply Forall_impl; [exact H |].
  intros [q|] Hx; [exact Hx |]. cbn. lra.
Qed.

Lemma all_nums_map (raw : list npfloat) (qs : list Q) :
  Startup.all_nums raw = Some qs -> raw = map Num qs.
Proof.
  revert qs. induction raw as [|[q|] raw IH]; intros qs; cbn.
  - now intros [= <-].
  - destruct (Startup.all_nums raw) as [qs'|]; cbn; [| discriminate].
    intros [= <-]. cbn. now rewrite (IH qs').
  - discriminate.
Qed.

Lemma scale_profile_shape (raw : list npfloat) :
  raw <> [] ->
  exists scaled,
    Startup.scale_profile raw = Ok scaled /\
    Forall2 (fun r s => match r with
                        | Num _ => exists q, s = Num q /\ (0 <= q <= 100)%Q
                        | NaN => s = NaN
                        end) raw scaled.
Proof.
  intros Hne.
  assert (Hflat : Forall2 (fun r s => match r with
                        | Num _ => exists q, s = Num q /\ (0 <= q <= 100)%Q
                        | NaN => s = NaN
                        end) raw
                    (map (fun a => match a with Num _ => Num 20 | NaN => NaN end)
                         raw)).
  { apply Forall2_fmap_r, Forall_Forall2_diag, Forall_forall.
    intros [q|] _; [| reflexivity].
    exists 20%Q. split; [reflexivity |]. split; vm_compute; discriminate. }
  unfold Startup.scale_profile.
  destruct raw as [|r0 raw']; [congruence |].
  destruct (Startup.all_nums (r0 :: raw')) as [[|x xs]|] eqn:Hnums;
    [eauto | | eauto].
  apply all_nums_map in Hnums. rewrite Hnums.
  destruct (arr_max_spec x xs) as [_ Hmax].
  destruct (arr_min_spec x xs) as [_ Hmin].
  destruct (Qgtb (Startup.arr_max x xs) (Startup.arr_min x xs)) eqn:Hr.
  - apply Qgtb_spec in Hr. eexists. split; [reflexivity |].
    apply Forall2_fmap, Forall_Forall2_diag, Forall_forall.
    intros a Ha. apply list_elem_of_In in Ha.
    eexists. split; [reflexivity |].
    apply scale_bounds; [split; [now apply Hmin | now apply Hmax] | exact Hr].
  - eexists. split; [reflexivity |].
    apply Forall2_fmap, Forall_Forall2_diag, Forall_forall.
    intros a _. exists 20%Q. split; [reflexivity |].
    split; vm_compute; discriminate.
Qed.

(** X18: the scaling of a non-empty cluster profile never raises; it keeps
    the length, turns every number into a number in [0, 100] and leaves NaN
    entries where they were. *)
Theorem scale_profile_range (raw : list npfloat) :
  raw <> [] ->
  exists scaled,
    Startup.scale_profile raw = Ok scaled /\
    Forall2 (fun r s => match r with
                        | Num _ => exists q, s = Num q /\ (0 <= q <= 100)%Q
                        | NaN => s = NaN
                        end) raw scaled.
Proof.
  intros Hne.
  destruct (scale_profile_shape raw Hne) as (scaled & Hrun & Hall).
  exists scaled. split; assumption.
Qed.

Lemma scale_profile_range_witness :
  exists scaled,
    Startup.scale_profile [Num 3; NaN; Num 7] = Ok scaled /\
    Forall2 (fun r s => match r with
                        | Num _ => exists q, s = Num q /\ (0 <= q <= 100)%Q
                        | NaN => s = NaN
                        end) [Num 3; NaN; Num 7] scaled.
Proof.
  apply (scale_profile_range [Num 3; NaN; Num 7]). discriminate.
Defined.

Lemma scale_profile_clean (raw scaled : list npfloat) :
  Startup.scale_profile raw = Ok scaled ->
  Forall (fun x => match x with
                   | Num q => (0 <= q <= 100)%Q
                   | NaN => True
                   end) scaled.
Proof.
  intros Hs. destruct raw as [|r0 raw']; [discriminate Hs |].
  destruct (scale_profile_shape (r0 :: raw')) as (scaled' & Hs' & Hall);
    [discriminate |].
  rewrite Hs in Hs'. injection Hs' as <-.
  apply Forall2_Forall_r with (Q := fun x => match x with
                   | Num q => (0 <= q <= 100)%Q
                   | NaN => True
                   end) in Hall; [exact Hall |].
  apply Forall_forall. intros [q0|] _ y Hy.
  - destruct Hy as (q & -> & Hq). exact Hq.
  - now subst y.
Qed.

Lemma load_profiles_clean (profiles : list Startup.profile_entry)
    (cache : gmap string (list npfloat)) (k : string) (p : list npfloat) :
  (forall k' p', cache !! k' = Some p' ->
     Forall (fun x => match x with
                      | Num q => (0 <= q <= 100)%Q
                      | NaN => True
                      end) p') ->
  Startup.load_profiles profiles cache !! k = Some p ->
  Forall (fun x => match x with
                   | Num q => (0 <= q <= 100)%Q
                   | NaN => True
                   end) p.
Proof.
  revert cache. induction profiles as [|e rest IH]; intros cache Hc;
    cbn [Startup.load_profiles].
  - apply Hc.
  - destruct (Startup.scale_profile _) as [scaled|] eqn:Hs; [| apply Hc].
    apply IH. intros k' p' Hk'.
    destruct (decide (str_int (Startup.p_cluster_id e) = k')) as [<-|Hne].
    + rewrite lookup_insert_eq in Hk'. injection Hk' as <-.
      now apply scale_profile_clean in Hs.
    + rewrite lookup_insert_ne in Hk' by exact Hne. now apply (Hc k').
Qed.

Lemma pulse_source_clean
    (P C : gmap string (list npfloat)) (station cid : string) :
  (forall k p, P !! k = Some p ->
     length p = 24%nat /\
     Forall (fun v => exists q, v = Num q /\ (0 <= q <= 100)%Q) p) ->
  (forall k p, C !! k = Some p ->
     Forall (fun x => match x with
                      | Num q => (0 <= q <= 100)%Q
                      | NaN => True
                      end) p) ->
  length (pulse_source P C station cid) = 24%nat /\
  Forall (fun x => match x with
                   | Num q => (0 <= q <= 100)%Q
                   | NaN => True
                   end) (pulse_source P C station cid).
Proof.
  intros HP HC. unfold pulse_source.
  destruct (P !! normalize_key station) as [pulse|] eqn:E.
  - destruct (HP _ _ E) as [Hlen Hall]. split; [exact Hlen |].
    eapply Forall_impl; [exact Hall |]. intros x (q & -> & Hq). exact Hq.
  - destruct (C !! cid) as [profile|] eqn:EC; cbn [default from_option];
      unfold id.
    + destruct (Nat.leb_spec 24 (length profile)).
      * split; [rewrite length_take; lia |].
        apply Forall_take. exact (HC _ _ EC).
      * split; [reflexivity |]. apply Forall_replicate.
        split; vm_compute; discriminate.
    + split; [reflexivity |]. apply Forall_replicate.
      split; vm_compute; discriminate.
Qed.

Lemma startup_time_dna_buckets
    (raw_data : list Startup.traffic_row)
    (profiles : list Startup.profile_entry) (station cid : string) :
  exists m l e n,
    get_clean_time_dna (Startup.preload_pulses raw_data ∅)
                       (Startup.load_profiles profiles ∅) station cid
      = Ok (time_dna_of m l e n) /\
    0 <= m <= 100 /\ 0 <= l <= 100 /\ 0 <= e <= 100 /\ 0 <= n <= 100.
Proof.
  destruct (pulse_source_clean (Startup.preload_pulses raw_data ∅)
              (Startup.load_profiles profiles ∅) station cid)
    as [Hlen Hall].
  - intros k p. apply (proj2 (preload_pulses_entries raw_data)).
  - intros k p. apply load_profiles_clean.
    intros k' p' H. rewrite lookup_empty in H. discriminate.
  - unfold get_clean_time_dna. apply time_buckets_bounds.
    + unfold nan_to_num. rewrite length_map. lia.
    + now apply nan_to_num_clean.
Qed.

(** X19: with the pulse cache and the cluster profiles as the startup code
    builds them, TimeDNA extraction returns for every station name and every
    cluster id, and the four buckets are integers in [0, 100]. *)
Theorem startup_time_dna
    (raw_data : list Startup.traffic_row)
    (profiles : list Startup.profile_entry) (station cid : string) :
  exists m l e n,
    get_clean_time_dna (Startup.preload_pulses raw_data ∅)
                       (Startup.load_profiles profiles ∅) station cid
      = Ok (time_dna_of m l e n) /\
    0 <= m <= 100 /\ 0 <= l <= 100 /\ 0 <= e <= 100 /\ 0 <= n <= 100.
Proof.
  destruct (startup_time_dna_buckets raw_data profiles station cid)
    as (m & l & e & n & Hrun & Hb).
  exists m, l, e, n. split; [exact Hrun | exact Hb].
Qed.

(** ** The narrative endpoint *)

Lemma generate_shape (borough : string) (vitality office : Q) (uni : Z)
    (time_dna : dict Z) (g : dict json) :
  RuleBasedNarrative.generate borough vitality office uni time_dna = Ok g ->
  exists persona description,
    g = [ ("persona", JStr persona); ("description", JStr description) ].
Proof.
  unfold RuleBasedNarrative.generate.
  destruct (RuleBasedNarrative.character_type _ _ _ _) as [c|e]; cbn;
    [| discriminate].
  destruct (max_key time_dna) as [peak|e]; cbn; [| discriminate].
  intros [= <-]. eauto.
Qed.

Lemma baseline_shape (P C : gmap string (list npfloat))
    (D : gmap string (list Z)) (station : string) (data : row)
    (base : dict json) :
  baseline P C D station data = Ok base ->
  exists persona description,
    base = [ ("persona", JStr persona);
             ("description", JStr description);
             ("vitality_score",
              JFloat (calculate_percentile D "bars" (n_bars data)));
             ("office_score",
              JFloat (calculate_percentile D "offices" (n_offices data)));
             ("is_ai_generated", JBool false) ].
Proof.
  unfold baseline.
  destruct (get_clean_time_dna P C station _) as [time_dna|e]; cbn;
    [| discriminate].
  destruct (RuleBasedNarrative.generate _ _ _ _ time_dna) as [g|e] eqn:Hg;
    cbn; [| discriminate].
  apply generate_shape in Hg as (persona & description & ->).
  intros [= <-]. eauto.
Qed.

Lemma baseline_ok (P C : gmap string (list npfloat))
    (D : gmap string (list Z)) (station : string) (data : row) :
  (exists m l e n,
     get_clean_time_dna P C station (str_int (cluster_id data))
     = Ok (time_dna_of m l e n)) ->
  exists base, baseline P C D station data = Ok base.
Proof.
  intros (m & l & e & n & Hdna). unfold baseline. rewrite Hdna.
  cbn [mbind result_bind].
  unfold RuleBasedNarrative.generate.
  destruct (character_type_time_dna
              (calculate_percentile D "bars" (n_bars data))
              (calculate_percentile D "offices" (n_offices data))
              (default 0 (n_universities data)) m l e n) as [c ->].
  rewrite max_key_time_dna. cbn. eauto.
Qed.

(** X20: with the pulse cache and the cluster profiles as the startup code
    builds them, and the narrative cache a dict, the narrative endpoint
    never raises: whatever the station, the feature table, the
    distributions, the cache file and the outside do, the request returns
    a JSON object. *)
Theorem endpoint_never_raises
    (raw_data : list Startup.traffic_row)
    (profiles : list Startup.profile_entry)
    (D : gmap string (list Z)) (clusters : list row) (client : bool)
    (station : string) (out : outside)
    (st : Process.state) (m : gmap string json) :
  Process.NARRATIVES_CACHE st = Process.Mapping m ->
  exists fields,
    fst (Process.get_station_analysis (Startup.preload_pulses raw_data ∅)
           (Startup.load_profiles profiles ∅) D clusters client
           station out st)
    = Ok (JObj fields).
Proof.
  intros Hcache.
  set (P := Startup.preload_pulses raw_data ∅).
  set (C := Startup.load_profiles profiles ∅).
  destruct (is_cached m station) eqn:Hc.
  - destruct (is_cached_true _ _ Hc) as [fields Hf].
    rewrite (process_hit P C D clusters client station out st m fields
               Hcache Hf).
    eauto.
  - rewrite (process_miss P C D clusters client station out st m Hcache Hc).
    cbn zeta.
    destruct (query_station clusters (db_up out) station) as [|data rest].
    + unfold unknown_station. eauto.
    + destruct (baseline_ok P C D station data) as [base ->].
      { destruct (startup_time_dna_buckets raw_data profiles station
                    (str_int (cluster_id data)))
          as (m' & l & e & n & Hrun & _).
        now exists m', l, e, n. }
      cbn. eauto.
Qed.

Lemma endpoint_never_raises_witness :
  exists fields,
    fst (Process.get_station_analysis
           (Startup.preload_pulses
              [Startup.TrafficRow (Some "Canal St") 8 (Some (Num 120))] ∅)
           (Startup.load_profiles [] ∅) Demo.distributions Demo.table true
           "Canal St" (Outside true NoReply DumpFails) ProcessDemo.fresh)
    = Ok (JObj fields).
Proof.
  apply (endpoint_never_raises
           [Startup.TrafficRow (Some "Canal St") 8 (Some (Num 120))] []
           Demo.distributions Demo.table true "Canal St"
           (Outside true NoReply DumpFails) ProcessDemo.fresh ∅).
  reflexivity.
Defined.

Lemma setitem_keys {V} (d : dict V) (k : string) (v : V) :
  is_Some (dict_get d k) -> map fst (setitem d k v) = map fst d.
Proof.
  induction d as [|[k0 v0] d IH]; cbn.
  - intros [x Hx]. discriminate Hx.
  - destruct (String.eqb k0 k); cbn; [reflexivity |].
    intros H. now rewrite IH.
Qed.

(** X21: the polish step can change two fields only.  Given a record that
    has the [description] and [is_ai_generated] fields, the result has the
    same fields in the same order and every other field (persona, scores)
    keeps its value; a reply that is a JSON object with a [description]
    replaces the description and sets the flag, and any other reply leaves
    the record as it was. *)
Theorem apply_polish_fields (r : polish_reply) (result : dict json) :
  is_Some (dict_get result "description") ->
  is_Some (dict_get result "is_ai_generated") ->
  map fst (apply_polish r result) = map fst result /\
  (forall k, k <> "description" -> k <> "is_ai_generated" ->
     dict_get (apply_polish r result) k = dict_get result k) /\
  match r with
  | Parsed (JObj fields) =>
    match dict_get fields "description" with
    | Some d =>
      dict_get (apply_polish r result) "description" = Some d /\
      dict_get (apply_polish r result) "is_ai_generated" = Some (JBool true)
    | None => apply_polish r result = result
    end
  | _ => apply_polish r result = result
  end.
Proof.
  intros Hd Hf.
  destruct r as [|[| | | | | |fields]]; cbn [apply_polish];
    try (repeat split; reflexivity).
  destruct (dict_get fields "description") as [d|];
    [| repeat split; reflexivity].
  split; [| split; [| split]].
  - rewrite setitem_keys; [now apply setitem_keys |].
    rewrite dict_get_setitem. cbn. exact Hf.
  - intros k Hk1 Hk2. rewrite !dict_get_setitem.
    destruct (String.eqb_spec "is_ai_generated" k) as [<-|_]; [congruence |].
    destruct (String.eqb_spec "description" k) as [<-|_]; [congruence |].
    reflexivity.
  - rewrite !dict_get_setitem. reflexivity.
  - rewrite dict_get_setitem. reflexivity.
Qed.

Lemma apply_polish_fields_witness :
  dict_get (apply_polish Demo.polished
              [ ("persona", JStr "Canal St Local Stop");
                ("description", JStr "Baseline.");
                ("is_ai_generated", JBool false) ]) "persona"
  = Some (JStr "Canal St Local Stop").
Proof.
  pose proof (apply_polish_fields Demo.polished
                [ ("persona", JStr "Canal St Local Stop");
                  ("description", JStr "Baseline.");
                  ("is_ai_generated", JBool false) ]) as H.
  destruct H as (_ & Hother & _); [cbn; eauto | cbn; eauto |].
  rewrite Hother; [reflexivity | discriminate | discriminate].
Defined.

(** X22: compute once, keep for the life of the process: a record that is
    in the in-memory cache stays there unchanged through any request, for
    the same station or for another one. *)
Theorem cached_records_are_permanent
    (P C : gmap string (list npfloat)) (D : gmap string (list Z))
    (clusters : list row) (client : bool)
    (station other : string) (out : outside) (st : world)
    (fields : dict json) :
  NARRATIVES_CACHE st !! other = Some (JObj fields) ->
  NARRATIVES_CACHE
    (snd (get_station_analysis P C D clusters client station out st))
    !! other = Some (JObj fields).
Proof.
  intros Hother.
  destruct (is_cached (NARRATIVES_CACHE st) station) eqn:Hc.
  - destruct (is_cached_true _ _ Hc) as [f Hf].
    now rewrite (serve_hit P C D clusters client station out st f Hf).
  - assert (Hne : station <> other).
    { intros ->. unfold is_cached in Hc. now rewrite Hother in Hc. }
    rewrite (serve_miss P C D clusters client station out st Hc). cbn zeta.
    destruct (query_station clusters (db_up out) station) as [|data rest];
      [exact Hother |].
    destruct (baseline P C D station data) as [base|e]; [| exact Hother].
    cbn [snd].
    match goal with
    | |- context [save_cache ?w ?s] =>
      destruct (save_cache_memory w s) as (-> & _)
    end.
    cbn. now rewrite lookup_insert_ne.
Qed.

Lemma cached_records_are_permanent_witness :
  NARRATIVES_CACHE
    (snd (get_station_analysis Demo.pulses Demo.profiles Demo.distributions
            Demo.table true "Canal St" (Outside true NoReply Written)
            (World {[ "Wall St" := JObj [("persona", JStr "Kept")] ]}
                   NoFile 0 0)))
    !! "Wall St" = Some (JObj [("persona", JStr "Kept")]).
Proof.
  apply cached_records_are_permanent. reflexivity.
Defined.

(** X23: a record whose write succeeded survives a restart: the file holds
    the whole in-memory cache, a restart that can read the file restores
    that cache, and the next request for the station is answered with the
    same record without a table lookup or a polish call. *)
Theorem written_record_survives_restart
    (P C : gmap string (list npfloat)) (D : gmap string (list Z))
    (clusters : list row) (client : bool)
    (station : string) (out1 out2 : outside) (st : world)
    (data : row) (rest : list row) (base : dict json) :
  write out1 = Written ->
  is_cached (NARRATIVES_CACHE st) station = false ->
  query_station clusters (db_up out1) station = data :: rest ->
  baseline P C D station data = Ok base ->
  let serve := get_station_analysis P C D clusters client in
  let run1 := serve station out1 st in
  let restarted := startup true (snd run1) in
  NARRATIVES_FILE (snd run1) = Holds (NARRATIVES_CACHE (snd run1)) /\
  NARRATIVES_CACHE restarted = NARRATIVES_CACHE (snd run1) /\
  serve station out2 restarted = (fst run1, restarted).
Proof.
  intros Hw Hc Hq Hb. cbn zeta.
  rewrite (serve_miss P C D clusters client station out1 st Hc).
  cbn zeta. rewrite Hq, Hb, Hw. cbn [fst snd save_cache].
  cbn [NARRATIVES_CACHE NARRATIVES_FILE db_queries polish_calls].
  split; [reflexivity |]. split; [reflexivity |].
  apply serve_hit. cbn. apply lookup_insert_eq.
Qed.

Lemma written_record_survives_restart_witness :
  let serve :=
    get_station_analysis Demo.pulses Demo.profiles Demo.distributions
      Demo.table true in
  let run1 :=
    serve "Canal St" (Outside true Demo.polished Written) Demo.fresh in
  serve "Canal St" (Outside false NoReply DumpFails) (startup true (snd run1))
  = (fst run1, startup true (snd run1)).
Proof.
  cbn zeta.
  destruct (baseline Demo.pulses Demo.profiles Demo.distributions
              "Canal St" Demo.canal_st) as [base|e] eqn:Hb;
    [| vm_compute in Hb; discriminate].
  apply (written_record_survives_restart
           Demo.pulses Demo.profiles Demo.distributions Demo.table true
           "Canal St" (Outside true Demo.polished Written)
           (Outside false NoReply DumpFails) Demo.fresh
           Demo.canal_st [] base);
    [reflexivity | reflexivity | reflexivity | exact Hb].
Defined.

Lemma serve_ignores_counters
    (P C : gmap string (list npfloat)) (D : gmap string (list Z))
    (clusters : list row) (client : bool)
    (station : string) (out : outside) (st : world) (q p : nat) :
  fst (get_station_analysis P C D clusters client station out
         (World (NARRATIVES_CACHE st) (NARRATIVES_FILE st) q p))
  = fst (get_station_analysis P C D clusters client station out st).
Proof.
  unfold get_station_analysis.
  cbn [NARRATIVES_CACHE NARRATIVES_FILE db_queries polish_calls].
  destruct (NARRATIVES_CACHE st !! station) as [[]|];
    try reflexivity;
    destruct (query_station clusters (db_up out) station);
    try reflexivity;
    destruct (baseline P C D station r); try reflexivity;
    destruct client; reflexivity.
Qed.

(** X24: a failed table lookup is answered like an unknown station and
    leaves no trace: the cache, the file and the polish model are not
    touched, so the next request for the station is answered exactly as it
    would have been without the failure. *)
Theorem table_failure_is_not_cached
    (P C : gmap string (list npfloat)) (D : gmap string (list Z))
    (clusters : list row) (client : bool)
    (station : string) (out1 out2 : outside) (st : world) :
  is_cached (NARRATIVES_CACHE st) station = false ->
  db_up out1 = false ->
  let serve := get_station_analysis P C D clusters client in
  let run1 := serve station out1 st in
  run1 = (Ok unknown_station,
          World (NARRATIVES_CACHE st) (NARRATIVES_FILE st)
                (S (db_queries st)) (polish_calls st)) /\
  fst (serve station out2 (snd run1)) = fst (serve station out2 st).
Proof.
  intros Hc Hdown. cbn zeta.
  rewrite (serve_miss P C D clusters client station out1 st Hc). cbn zeta.
  unfold query_station at 1. rewrite Hdown.
  split; [reflexivity |]. cbn [snd]. apply serve_ignores_counters.
Qed.

Lemma table_failure_is_not_cached_witness :
  let serve :=
    get_station_analysis Demo.pulses Demo.profiles Demo.distributions
      Demo.table true in
  serve "Canal St" (Outside false Demo.polished Written) Demo.fresh
  = (Ok unknown_station, World ∅ NoFile 1 0).
Proof.
  apply (table_failure_is_not_cached
           Demo.pulses Demo.profiles Demo.distributions Demo.table true
           "Canal St" (Outside false Demo.polished Written)
           (Outside true Demo.polished Written) Demo.fresh);
    reflexivity.
Defined.

(** ** Cluster chart data *)

(** X25: the chart of a cluster has 24 values when the cluster has no
    profile (24 zeros) or a profile of at least 24 values (its first 24),
    and fewer when the profile is shorter.  For a profile of at least 24
    values the chart is the very array TimeDNA falls back to for a station
    without pulse of its own. *)
Theorem chart_data_shape
    (P C : gmap string (list npfloat)) (station cid : string) :
  length (chart_data C cid) =
    match C !! cid with
    | Some profile => Nat.min 24 (length profile)
    | None => 24%nat
    end /\
  (P !! normalize_key station = None ->
   (24 <= length (default [] (C !! cid)))%nat ->
   pulse_source P C station cid = chart_data C cid).
Proof.
  unfold chart_data. split.
  - destruct (C !! cid) as [profile|]; cbn [default from_option]; unfold id.
    + apply length_take.
    + reflexivity.
  - intros HP Hlen. unfold pulse_source. rewrite HP.
    destruct (C !! cid) as [profile|]; cbn [default from_option] in *;
      unfold id in *; [| cbn in Hlen; lia].
    destruct (Nat.leb_spec 24 (length profile)); [reflexivity | lia].
Qed.

Lemma chart_data_shape_witness :
  pulse_source ∅ {[ "3" := replicate 30 (Num 80) ]} "Canal St" "3"
  = chart_data {[ "3" := replicate 30 (Num 80) ]} "3".
Proof.
  apply (chart_data_shape ∅ {[ "3" := replicate 30 (Num 80) ]}
           "Canal St" "3").
  - reflexivity.
  - vm_compute. lia.
Defined.
